(** * Naval-Tech: the WebGL ocean background of [src/main.js]

    The development has four parts.

    - [GLSL]: the vector types and the built-in functions of the shading
      language that the fragment shader calls ([floor], [fract], [dot],
      [mix], [clamp], [smoothstep], [length]), with the defining equations
      of the GLSL ES 1.00 specification.
    - [Shader]: the fragment shader of [src/main.js] lines 25-90, function
      by function ([noise], [smoothNoise], [fbm], [dither], [main]).
    - [Page]: the JavaScript closure of lines 2-171 (context probe, shader
      compilation, linking, fallback, [resize], [render]) in a state monad
      over the page, with the host's answers read from a [Host] record and
      the host's later events (window resizes, animation frames)
      dispatched to the callbacks the closure registered.
    - [Animations]: the listener of [DOMContentLoaded] of lines 173-355
      (the check for the animation library, the entrance animations, the
      hover and click listeners) over a [Document] record of what the
      document answers, with the calls made on [gsap] kept as a trace.

    Numbers.  The shader computes on [mediump float], whose precision and
    whose [sin] the shading language leaves to the implementation.  The
    shader is embedded over the real numbers [R], so the statements made
    about it are those that do not rest on exact arithmetic: how a function
    is put together from the others (which terms, which weights, which
    constants), and identities that hold whatever the values of the hash
    are.  Bounds that hold for every input only in exact arithmetic are
    not stated: rounding, overflow and a division by a zero resolution are
    outside the embedding.  Integers of the page
    (pixel sizes, millisecond clock readings) are [Z], and a number handed
    to a uniform is its image in [R]. *)

From Stdlib Require Import Reals Lra Lia ZArith List String Bool.
Import ListNotations.

#[local] Open Scope R_scope.

(* ===================================================================== *)
(** ** The shading language's vectors and built-in functions             *)
(* ===================================================================== *)

Module GLSL.

Record vec2 : Type := Vec2 { vx : R; vy : R }.
Record vec3 : Type := Vec3 { cr : R; cg : R; cb : R }.
Record vec4 : Type := Vec4 { x4 : R; y4 : R; z4 : R; w4 : R }.

(** [v.xy] of a [vec4]. *)
Definition xy (v : vec4) : vec2 := Vec2 (x4 v) (y4 v).

(** [vec4(c, a)] from a [vec3] and a scalar. *)
Definition vec4_of (c : vec3) (a : R) : vec4 := Vec4 (cr c) (cg c) (cb c) a.

(** Component-wise arithmetic on [vec2]. *)
Definition vadd (p q : vec2) : vec2 := Vec2 (vx p + vx q) (vy p + vy q).
Definition vsub (p q : vec2) : vec2 := Vec2 (vx p - vx q) (vy p - vy q).
Definition vmul (p q : vec2) : vec2 := Vec2 (vx p * vx q) (vy p * vy q).
Definition vdiv (p q : vec2) : vec2 := Vec2 (vx p / vx q) (vy p / vy q).
(** [p * s] and [p - s] with a scalar [s]. *)
Definition vscale (p : vec2) (s : R) : vec2 := Vec2 (vx p * s) (vy p * s).
Definition vsubs (p : vec2) (s : R) : vec2 := Vec2 (vx p - s) (vy p - s).

(** [floor(x)]: the nearest integer not above [x]. *)
Definition floor (x : R) : R := IZR (Zfloor x).
(** [fract(x) = x - floor(x)]. *)
Definition fract (x : R) : R := x - floor x.
Definition floor2 (p : vec2) : vec2 := Vec2 (floor (vx p)) (floor (vy p)).
Definition fract2 (p : vec2) : vec2 := Vec2 (fract (vx p)) (fract (vy p)).

(** [dot(p, q)]. *)
Definition dot (p q : vec2) : R := vx p * vx q + vy p * vy q.
(** [length(p)]. *)
Definition length (p : vec2) : R := sqrt (vx p * vx p + vy p * vy p).

(** [mix(x, y, a) = x * (1 - a) + y * a]. *)
Definition mix (x y a : R) : R := x * (1 - a) + y * a.
Definition mix3 (x y : vec3) (a : R) : vec3 :=
  Vec3 (mix (cr x) (cr y) a) (mix (cg x) (cg y) a) (mix (cb x) (cb y) a).
Definition scale3 (c : vec3) (s : R) : vec3 :=
  Vec3 (cr c * s) (cg c * s) (cb c * s).

(** [clamp(x, lo, hi) = min(max(x, lo), hi)]. *)
Definition clamp (x lo hi : R) : R := Rmin (Rmax x lo) hi.
(** [smoothstep(e0, e1, x)]: Hermite interpolation of the clamped ratio. *)
Definition smoothstep (e0 e1 x : R) : R :=
  let t := clamp ((x - e0) / (e1 - e0)) 0 1 in
  t * t * (3 - 2 * t).

End GLSL.

(* ===================================================================== *)
(** ** The fragment shader                                               *)
(* ===================================================================== *)

Module Shader.
Import GLSL.

(** [float noise(vec2 p)], line 30. *)
Definition noise (p : vec2) : R :=
  fract (sin (dot p (Vec2 12.9898 78.233)) * 43758.5453).

(** [float smoothNoise(vec2 p)], line 34. *)
Definition smoothNoise (p : vec2) : R :=
  let i := floor2 p in
  let f := fract2 p in
  let f := vmul (vmul f f) (Vec2 (3.0 - 2.0 * vx f) (3.0 - 2.0 * vy f)) in
  let a := noise i in
  let b := noise (vadd i (Vec2 1.0 0.0)) in
  let c := noise (vadd i (Vec2 0.0 1.0)) in
  let d := noise (vadd i (Vec2 1.0 1.0)) in
  mix (mix a b (vx f)) (mix c d (vx f)) (vy f).

(** The body of the [for] loop of [fbm], run [n] more times on the three
    loop-carried variables. *)
Fixpoint fbm_loop (n : nat) (p : vec2) (value amplitude frequency : R) : R :=
  match n with
  | O => value
  | S n' =>
      let value := value + amplitude * smoothNoise (vscale p frequency) in
      let frequency := frequency * 2.0 in
      let amplitude := amplitude * 0.5 in
      fbm_loop n' p value amplitude frequency
  end.

(** [float fbm(vec2 p)], line 47: [for (int i = 0; i < 5; i++)]. *)
Definition fbm (p : vec2) : R := fbm_loop 5 p 0.0 0.5 1.0.

(** [float dither(vec2 p)], line 60. *)
Definition dither (p : vec2) : R :=
  fract (dot p (Vec2 0.129898 0.78233) * 43758.5453).

(** The uniforms of the program and the built-in input of a fragment. *)
Record Uniforms : Type := { u_time : R; u_resolution : vec2 }.

(** The locals of [main], lines 65-74, each as a function of what it is
    computed from. *)
Definition main_uv (u : Uniforms) (gl_FragCoord : vec4) : vec2 :=
  vdiv (xy gl_FragCoord) (u_resolution u).
Definition main_p (uv : vec2) : vec2 := vscale uv 3.0.
Definition wave1 (time : R) (p : vec2) : R :=
  fbm (vadd p (Vec2 (time * 0.05) (time * 0.03))).
Definition wave2 (time : R) (p : vec2) : R :=
  fbm (vsub (vscale p 1.5) (Vec2 (time * 0.04) (time * 0.02))).
(** [pattern] before line 74. *)
Definition blend (time : R) (p : vec2) : R :=
  wave1 time p * 0.6 + wave2 time p * 0.4.
Definition ditherValue (gl_FragCoord : vec4) : R :=
  dither (xy gl_FragCoord) * 0.08.
(** [pattern] after [pattern += ditherValue]. *)
Definition pattern (u : Uniforms) (gl_FragCoord : vec4) : R :=
  blend (u_time u) (main_p (main_uv u gl_FragCoord)) + ditherValue gl_FragCoord.

Definition deepBlue : vec3 := Vec3 0.05 0.08 0.15.
Definition midBlue : vec3 := Vec3 0.08 0.12 0.22.
Definition steelGray : vec3 := Vec3 0.15 0.18 0.24.
Definition accentCyan : vec3 := Vec3 0.15 0.25 0.35.

(** [void main()], line 64; the result is the value written to
    [gl_FragColor]. *)
Definition main (u : Uniforms) (gl_FragCoord : vec4) : vec4 :=
  let uv := main_uv u gl_FragCoord in
  let pattern := pattern u gl_FragCoord in
  let color := mix3 deepBlue midBlue pattern in
  let color := mix3 color steelGray (smoothstep 0.4 0.8 pattern) in
  let color := mix3 color accentCyan (smoothstep 0.7 1.0 pattern * 0.3) in
  let vignette := 1.0 - length (vsubs uv 0.5) * 0.7 in
  let color := scale3 color vignette in
  vec4_of color 1.0.

End Shader.

(* ===================================================================== *)
(** ** The set-up closure, the resize handler and the render loop        *)
(* ===================================================================== *)

Module Page.
Import GLSL Shader.
#[local] Open Scope string_scope.

(** *** What the host answers *)

Inductive ShaderType : Type := VERTEX_SHADER | FRAGMENT_SHADER.
Inductive Source : Type := vertexShaderSource | fragmentShaderSource.
Inductive DrawMode : Type := TRIANGLES | TRIANGLE_STRIP | TRIANGLE_FAN.

(** The answers of the browser and of the driver that the closure branches
    on: whether [canvas.getContext(id)] yields a context, the
    [COMPILE_STATUS] of each stage, and the [LINK_STATUS] of the program. *)
Record Host : Type := {
  getContext : string -> bool;
  COMPILE_STATUS : ShaderType -> bool;
  LINK_STATUS : bool
}.

(** The active uniforms of the linked program; a
    [WebGLUniformLocation] is one of them, or [null]. *)
Inductive Uniform : Type := U_time | U_resolution.
Definition Location : Type := option Uniform.

(** The calls made on the canvas and on the context, in the order made. *)
Inductive Call : Type :=
| GetContext (id : string)
| CreateShader (type : ShaderType)
| ShaderSource (shader : ShaderType) (source : Source)
| CompileShader (shader : ShaderType)
| GetShaderParameter (shader : ShaderType)
| GetShaderInfoLog (shader : ShaderType)
| DeleteShader (shader : ShaderType)
| CreateProgram
| AttachShader (shader : ShaderType)
| LinkProgram
| GetProgramParameter
| GetProgramInfoLog
| UseProgram
| CreateBuffer
| BindBuffer
| BufferData (data : list Z)
| GetAttribLocation (name : string)
| EnableVertexAttribArray
| VertexAttribPointer (size : Z)
| GetUniformLocation (name : string)
| Viewport (x y width height : Z)
| Uniform2f (location : Location) (x y : R)
| Uniform1f (location : Location) (x : R)
| DrawArrays (mode : DrawMode) (first count : Z).

(** The two functions of the closure that are handed to the host, with the
    closure variables each one reads. *)
Inductive Callback : Type :=
| cb_resize (resolutionLocation : Location)
| cb_render (timeLocation : Location) (startTime : Z).

(** *** The page *)

Record State : Type := {
  (* document *)
  fallback_classList : list string;
  canvas_display : string;
  canvas_width : Z;
  canvas_height : Z;
  console : list string;
  (* window *)
  innerWidth : Z;
  innerHeight : Z;
  clock : Z;
  resize_listeners : list Callback;
  frame_callbacks : list Callback;
  (* context *)
  calls : list Call;
  viewport : Z * Z * Z * Z;
  uniforms : Uniforms
}.

(** A page before the script runs: the classes and the display style the
    markup gives, the window's size, the clock's reading; no listener, no
    call, uniforms at the initial value of the graphics interface. *)
Definition fresh (classes : list string) (display : string)
    (w h now : Z) : State :=
  {| fallback_classList := classes; canvas_display := display;
     canvas_width := 300; canvas_height := 150; console := [];
     innerWidth := w; innerHeight := h; clock := now;
     resize_listeners := []; frame_callbacks := [];
     calls := []; viewport := (0, 0, 300, 150)%Z;
     uniforms := {| u_time := 0; u_resolution := Vec2 0 0 |} |}.

Definition set_classList (v : list string) (s : State) : State :=
  {| fallback_classList := v; canvas_display := canvas_display s;
     canvas_width := canvas_width s; canvas_height := canvas_height s;
     console := console s; innerWidth := innerWidth s;
     innerHeight := innerHeight s; clock := clock s;
     resize_listeners := resize_listeners s;
     frame_callbacks := frame_callbacks s; calls := calls s;
     viewport := viewport s; uniforms := uniforms s |}.
Definition set_display (v : string) (s : State) : State :=
  {| fallback_classList := fallback_classList s; canvas_display := v;
     canvas_width := canvas_width s; canvas_height := canvas_height s;
     console := console s; innerWidth := innerWidth s;
     innerHeight := innerHeight s; clock := clock s;
     resize_listeners := resize_listeners s;
     frame_callbacks := frame_callbacks s; calls := calls s;
     viewport := viewport s; uniforms := uniforms s |}.
Definition set_width (v : Z) (s : State) : State :=
  {| fallback_classList := fallback_classList s;
     canvas_display := canvas_display s;
     canvas_width := v; canvas_height := canvas_height s;
     console := console s; innerWidth := innerWidth s;
     innerHeight := innerHeight s; clock := clock s;
     resize_listeners := resize_listeners s;
     frame_callbacks := frame_callbacks s; calls := calls s;
     viewport := viewport s; uniforms := uniforms s |}.
Definition set_height (v : Z) (s : State) : State :=
  {| fallback_classList := fallback_classList s;
     canvas_display := canvas_display s;
     canvas_width := canvas_width s; canvas_height := v;
     console := console s; innerWidth := innerWidth s;
     innerHeight := innerHeight s; clock := clock s;
     resize_listeners := resize_listeners s;
     frame_callbacks := frame_callbacks s; calls := calls s;
     viewport := viewport s; uniforms := uniforms s |}.
Definition set_console (v : list string) (s : State) : State :=
  {| fallback_classList := fallback_classList s;
     canvas_display := canvas_display s;
     canvas_width := canvas_width s; canvas_height := canvas_height s;
     console := v; innerWidth := innerWidth s;
     innerHeight := innerHeight s; clock := clock s;
     resize_listeners := resize_listeners s;
     frame_callbacks := frame_callbacks s; calls := calls s;
     viewport := viewport s; uniforms := uniforms s |}.
Definition set_window (w h : Z) (s : State) : State :=
  {| fallback_classList := fallback_classList s;
     canvas_display := canvas_display s;
     canvas_width := canvas_width s; canvas_height := canvas_height s;
     console := console s; innerWidth := w;
     innerHeight := h; clock := clock s;
     resize_listeners := resize_listeners s;
     frame_callbacks := frame_callbacks s; calls := calls s;
     viewport := viewport s; uniforms := uniforms s |}.
Definition set_clock (v : Z) (s : State) : State :=
  {| fallback_classList := fallback_classList s;
     canvas_display := canvas_display s;
     canvas_width := canvas_width s; canvas_height := canvas_height s;
     console := console s; innerWidth := innerWidth s;
     innerHeight := innerHeight s; clock := v;
     resize_listeners := resize_listeners s;
     frame_callbacks := frame_callbacks s; calls := calls s;
     viewport := viewport s; uniforms := uniforms s |}.
Definition set_resize_listeners (v : list Callback) (s : State) : State :=
  {| fallback_classList := fallback_classList s;
     canvas_display := canvas_display s;
     canvas_width := canvas_width s; canvas_height := canvas_height s;
     console := console s; innerWidth := innerWidth s;
     innerHeight := innerHeight s; clock := clock s;
     resize_listeners := v;
     frame_callbacks := frame_callbacks s; calls := calls s;
     viewport := viewport s; uniforms := uniforms s |}.
Definition set_frame_callbacks (v : list Callback) (s : State) : State :=
  {| fallback_classList := fallback_classList s;
     canvas_display := canvas_display s;
     canvas_width := canvas_width s; canvas_height := canvas_height s;
     console := console s; innerWidth := innerWidth s;
     innerHeight := innerHeight s; clock := clock s;
     resize_listeners := resize_listeners s;
     frame_callbacks := v; calls := calls s;
     viewport := viewport s; uniforms := uniforms s |}.
Definition set_calls (v : list Call) (s : State) : State :=
  {| fallback_classList := fallback_classList s;
     canvas_display := canvas_display s;
     canvas_width := canvas_width s; canvas_height := canvas_height s;
     console := console s; innerWidth := innerWidth s;
     innerHeight := innerHeight s; clock := clock s;
     resize_listeners := resize_listeners s;
     frame_callbacks := frame_callbacks s; calls := v;
     viewport := viewport s; uniforms := uniforms s |}.
Definition set_viewport (v : Z * Z * Z * Z) (s : State) : State :=
  {| fallback_classList := fallback_classList s;
     canvas_display := canvas_display s;
     canvas_width := canvas_width s; canvas_height := canvas_height s;
     console := console s; innerWidth := innerWidth s;
     innerHeight := innerHeight s; clock := clock s;
     resize_listeners := resize_listeners s;
     frame_callbacks := frame_callbacks s; calls := calls s;
     viewport := v; uniforms := uniforms s |}.
Definition set_uniforms (v : Uniforms) (s : State) : State :=
  {| fallback_classList := fallback_classList s;
     canvas_display := canvas_display s;
     canvas_width := canvas_width s; canvas_height := canvas_height s;
     console := console s; innerWidth := innerWidth s;
     innerHeight := innerHeight s; clock := clock s;
     resize_listeners := resize_listeners s;
     frame_callbacks := frame_callbacks s; calls := calls s;
     viewport := viewport s; uniforms := v |}.

(** *** A state monad for the script *)

Definition M (A : Type) : Type := State -> A * State.
Definition ret {A : Type} (a : A) : M A := fun s => (a, s).
Definition bind {A B : Type} (m : M A) (k : A -> M B) : M B :=
  fun s => let (a, s') := m s in k a s'.
Definition get {A : Type} (f : State -> A) : M A := fun s => (f s, s).
Definition modify (f : State -> State) : M unit := fun s => (tt, f s).
Definition exec {A : Type} (m : M A) (s : State) : State := snd (m s).

Notation "x <- m ;; k" := (bind m (fun x => k))
  (at level 61, m at next level, right associativity).
Notation "m ;; k" := (bind m (fun _ => k))
  (at level 61, right associativity).

(** Runs [f] on each element of a list, left to right. *)
Fixpoint for_each {A : Type} (f : A -> M unit) (l : list A) : M unit :=
  match l with
  | [] => ret tt
  | a :: l' => f a ;; for_each f l'
  end.


(** *** The host interfaces the script calls *)

Definition call (c : Call) : M unit :=
  modify (fun s => set_calls (calls s ++ [c])%list s).

Definition console_warn (msg : string) : M unit :=
  modify (fun s => set_console (console s ++ [msg])%list s).
Definition console_error (msg : string) : M unit :=
  modify (fun s => set_console (console s ++ [msg])%list s).

(** [fallback.classList.add(token)]: a token already there is not added
    again. *)
Definition classList_add (token : string) : M unit :=
  modify (fun s =>
    set_classList
      (if existsb (String.eqb token) (fallback_classList s)
       then fallback_classList s
       else (fallback_classList s ++ [token])%list) s).

(** [canvas.style.display = v]. *)
Definition style_display (v : string) : M unit := modify (set_display v).

(** The location of an active uniform of the linked program, by name; the
    fragment shader declares and reads [u_time] and [u_resolution]. *)
Definition uniform_location (name : string) : Location :=
  if String.eqb name "u_time" then Some U_time
  else if String.eqb name "u_resolution" then Some U_resolution
  else None.

Definition gl_getUniformLocation (name : string) : M Location :=
  call (GetUniformLocation name) ;; ret (uniform_location name).

(** [gl.viewport]: a negative width or height is an [INVALID_VALUE] error
    and leaves the viewport as it was. *)
Definition gl_viewport (x y width height : Z) : M unit :=
  call (Viewport x y width height) ;;
  modify (fun s =>
    set_viewport
      (if (width <? 0)%Z || (height <? 0)%Z then viewport s
       else (x, y, width, height)) s).

(** [gl.uniform2f] and [gl.uniform1f]: a [null] location is ignored, and so
    is a location of a uniform of another type. *)
Definition gl_uniform2f (location : Location) (x y : R) : M unit :=
  call (Uniform2f location x y) ;;
  modify (fun s =>
    set_uniforms
      match location with
      | Some U_resolution =>
          {| u_time := u_time (uniforms s); u_resolution := Vec2 x y |}
      | _ => uniforms s
      end s).
Definition gl_uniform1f (location : Location) (x : R) : M unit :=
  call (Uniform1f location x) ;;
  modify (fun s =>
    set_uniforms
      match location with
      | Some U_time =>
          {| u_time := x; u_resolution := u_resolution (uniforms s) |}
      | _ => uniforms s
      end s).

Definition window_addEventListener_resize (f : Callback) : M unit :=
  modify (fun s => set_resize_listeners (resize_listeners s ++ [f])%list s).
Definition requestAnimationFrame (f : Callback) : M unit :=
  modify (fun s => set_frame_callbacks (frame_callbacks s ++ [f])%list s).

(** The vertices of the full-screen quad, line 132. *)
Definition positions : list Z := [-1; -1; 1; -1; -1; 1; 1; 1]%Z.

(** *** The script, lines 2-171 *)

Section Script.
Variable host : Host.

Definition canvas_get_context (id : string) : M bool :=
  call (GetContext id) ;; ret (getContext host id).

(** [function compileShader(source, type)], line 93; [None] is [null]. *)
Definition compileShader (source : Source) (type : ShaderType)
    : M (option ShaderType) :=
  let shader := type in
  call (CreateShader type) ;;
  call (ShaderSource shader source) ;;
  call (CompileShader shader) ;;
  call (GetShaderParameter shader) ;;
  if negb (COMPILE_STATUS host shader) then
    call (GetShaderInfoLog shader) ;;
    console_error "Shader compilation error:" ;;
    call (DeleteShader shader) ;;
    ret None
  else ret (Some shader).

(** [function resize()], line 152. *)
Definition resize (resolutionLocation : Location) : M unit :=
  w <- get innerWidth ;;
  modify (set_width w) ;;
  h <- get innerHeight ;;
  modify (set_height h) ;;
  cw <- get canvas_width ;;
  ch <- get canvas_height ;;
  gl_viewport 0 0 cw ch ;;
  cw <- get canvas_width ;;
  ch <- get canvas_height ;;
  gl_uniform2f resolutionLocation (IZR cw) (IZR ch).

(** [function render()], line 164. *)
Definition render (timeLocation : Location) (startTime : Z) : M unit :=
  now <- get clock ;;
  let time := IZR (now - startTime) * 0.001 in
  gl_uniform1f timeLocation time ;;
  call (DrawArrays TRIANGLE_STRIP 0 4) ;;
  requestAnimationFrame (cb_render timeLocation startTime).

(** The fallback of lines 11-12, 112-113 and 124-125. *)
Definition use_fallback : M unit :=
  classList_add "active" ;;
  style_display "none".

(** The closure of line 2; each [return] ends its branch. *)
Definition iife : M unit :=
  gl <- (g <- canvas_get_context "webgl" ;;
         if g then ret true else canvas_get_context "experimental-webgl") ;;
  if negb gl then
    console_warn "WebGL not supported, using fallback" ;;
    use_fallback
  else
  vertexShader <- compileShader vertexShaderSource VERTEX_SHADER ;;
  fragmentShader <- compileShader fragmentShaderSource FRAGMENT_SHADER ;;
  match vertexShader, fragmentShader with
  | Some vertexShader, Some fragmentShader =>
      call CreateProgram ;;
      call (AttachShader vertexShader) ;;
      call (AttachShader fragmentShader) ;;
      call LinkProgram ;;
      call GetProgramParameter ;;
      if negb (LINK_STATUS host) then
        call GetProgramInfoLog ;;
        console_error "Program linking error:" ;;
        use_fallback
      else
      call UseProgram ;;
      call CreateBuffer ;;
      call BindBuffer ;;
      call (BufferData positions) ;;
      call (GetAttribLocation "a_position") ;;
      call EnableVertexAttribArray ;;
      call (VertexAttribPointer 2) ;;
      timeLocation <- gl_getUniformLocation "u_time" ;;
      resolutionLocation <- gl_getUniformLocation "u_resolution" ;;
      resize resolutionLocation ;;
      window_addEventListener_resize (cb_resize resolutionLocation) ;;
      startTime <- get clock ;;
      render timeLocation startTime
  | _, _ =>
      console_warn "Shader compilation failed, using fallback" ;;
      use_fallback
  end.

(** *** The host's event loop *)

Definition run_callback (f : Callback) : M unit :=
  match f with
  | cb_resize resolutionLocation => resize resolutionLocation
  | cb_render timeLocation startTime => render timeLocation startTime
  end.

(** What the host does after the script: the window changes size, or the
    display refreshes when the clock reads [now]. *)
Inductive HostEvent : Type :=
| WindowResize (w h : Z)
| AnimationFrame (now : Z).

Definition dispatch (e : HostEvent) : M unit :=
  match e with
  | WindowResize w h =>
      modify (set_window w h) ;;
      listeners <- get resize_listeners ;;
      for_each run_callback listeners
  | AnimationFrame now =>
      modify (set_clock now) ;;
      pending <- get frame_callbacks ;;
      modify (set_frame_callbacks []) ;;
      for_each run_callback pending
  end.

(** The life of the page: the script, then the host's events in order. *)
Definition page (events : list HostEvent) : M unit :=
  iife ;; for_each dispatch events.

End Script.

(** The host that gives the five answers the script asks for. *)
Definition answers (webgl experimental vertex fragment link : bool) : Host :=
  {| getContext := fun id =>
       if String.eqb id "webgl" then webgl
       else if String.eqb id "experimental-webgl" then experimental
       else false;
     COMPILE_STATUS := fun type =>
       match type with
       | VERTEX_SHADER => vertex
       | FRAGMENT_SHADER => fragment
       end;
     LINK_STATUS := link |}.

(** *** Observations on the calls made *)

Definition is_compile (c : Call) : bool :=
  match c with CompileShader _ => true | _ => false end.
Definition is_link (c : Call) : bool :=
  match c with LinkProgram => true | _ => false end.
Definition is_draw (c : Call) : bool :=
  match c with DrawArrays _ _ _ => true | _ => false end.

(** The fallback element is active and the canvas is hidden. *)
Definition fallback_shown (s : State) : Prop :=
  In "active" (fallback_classList s) /\ canvas_display s = "none".

(** No call of the given kind has been made. *)
Definition never (kind : Call -> bool) (s : State) : Prop :=
  forall c, In c (calls s) -> kind c = false.

(** Nothing of the script is left for the host to call. *)
Definition halted (s : State) : Prop :=
  resize_listeners s = [] /\ frame_callbacks s = [].

End Page.

(* ===================================================================== *)
(** ** The specification's formulas, to compare the shader with          *)
(* ===================================================================== *)

Module Reading.
Import GLSL Shader.

(** The smoothstep polynomial [3t^2 - 2t^3], written [t*t*(3 - 2*t)]. *)
Definition ease (t : R) : R := t * t * (3 - 2 * t).

(** Bilinear interpolation between [a] (at 0,0), [b] (at 1,0), [c] (at 0,1)
    and [d] (at 1,1) with weights [u] along x and [v] along y. *)
Definition bilinear (a b c d u v : R) : R :=
  a * (1 - u) * (1 - v) + b * u * (1 - v) + c * (1 - u) * v + d * u * v.

(** The smoothed noise as the specification words it: the interpolation of
    the four corner hashes of the unit cell of [p], eased weights. *)
Definition smoothNoise_spec (p : vec2) : R :=
  let i := floor2 p in
  bilinear (noise i) (noise (vadd i (Vec2 1 0)))
           (noise (vadd i (Vec2 0 1))) (noise (vadd i (Vec2 1 1)))
           (ease (fract (vx p))) (ease (fract (vy p))).

(** Octave [i] of the fractal sum: the amplitude starts at 0.5 and halves,
    the frequency starts at 1 and doubles. *)
Fixpoint octave_amplitude (i : nat) : R :=
  match i with
  | O => 0.5
  | S j => octave_amplitude j / 2
  end.
Fixpoint octave_frequency (i : nat) : R :=
  match i with
  | O => 1
  | S j => 2 * octave_frequency j
  end.
Definition octave (p : vec2) (i : nat) : R :=
  octave_amplitude i * smoothNoise (vscale p (octave_frequency i)).

(** [term 0 + term 1 + ... + term (n - 1)]. *)
Fixpoint sum_below (n : nat) (term : nat -> R) : R :=
  match n with
  | O => 0
  | S m => sum_below m term + term m
  end.

Definition fbm_spec (p : vec2) : R := sum_below 5 (octave p).

(** The hash of [noise] with the function [g] in the place of the sine:
    [hash sin] is [noise] itself. *)
Definition hash (g : R -> R) (p : vec2) : R :=
  fract (g (dot p (Vec2 12.9898 78.233)) * 43758.5453).

(** "The same hash function, at a different input scaling": [dither] is
    [noise] after the coordinate is scaled, component by component, by some
    fixed [s]. *)
Definition dither_is_scaled_noise : Prop :=
  exists s : vec2, forall p : vec2, dither p = noise (vmul p s).

(** "Added to the blended pattern scalar at weight 0.08". *)
Definition dither_weighted : Prop :=
  forall (u : Uniforms) (c : vec4),
    pattern u c
    = blend (u_time u) (main_p (main_uv u c)) + 0.08 * dither (xy c).

End Reading.

(* ===================================================================== *)
(** ** The page animations, lines 173-355                                *)
(* ===================================================================== *)

Module Animations.
#[local] Open Scope string_scope.

(** An element of the document. *)
Definition Node : Type := nat.

(** What an animation is aimed at: a selector, an element (or [null]), or
    the window. *)
Inductive Target : Type :=
| Selector (selector : string)
| Element (element : option Node)
| Window.

(** The values of the object literals handed to the animation library. *)
#[warnings="-register-all"]
Inductive Value : Type :=
| Num (x : R)
| Str (s : string)
| Tgt (t : Target)
| Obj (fields : list (string * Value)).
Definition Vars : Type := list (string * Value).

(** The calls made on [gsap], in the order made. *)
Inductive GsapCall : Type :=
| GsapFrom (target : Target) (vars : Vars)
| GsapTo (target : Target) (vars : Vars).

Inductive EventType : Type := mouseenter | mouseleave | click.

(** The listeners the script adds, with the variables each closure holds. *)
Inductive Handler : Type :=
| btn_enter (btn : Node)
| btn_leave (btn : Node)
| card_enter (card : Node) (number : option Node)
| card_leave (card : Node) (number : option Node)
| anchor_click (anchor : Node).

(** What the document answers: whether [gsap] is defined, the elements
    with class [feature-card], [stat-item] and [btn], the anchors whose
    [href] starts with a hash sign, the element of class [feature-number]
    inside a card, the [href] of an anchor, and [document.querySelector]. *)
Record Document : Type := {
  gsap_defined : bool;
  feature_cards : list Node;
  stat_items : list Node;
  btns : list Node;
  hash_anchors : list Node;
  feature_number : Node -> option Node;
  href : Node -> string;
  querySelector : string -> option Node
}.

Record Anim : Type := {
  gsap_calls : list GsapCall;
  handlers : list (Node * EventType * Handler);
  warnings : list string;
  prevented : list Node
}.

Definition start : Anim :=
  {| gsap_calls := []; handlers := []; warnings := []; prevented := [] |}.

Definition gsap_from (target : Target) (vars : Vars) (s : Anim) : Anim :=
  {| gsap_calls := (gsap_calls s ++ [GsapFrom target vars])%list;
     handlers := handlers s; warnings := warnings s;
     prevented := prevented s |}.
Definition gsap_to (target : Target) (vars : Vars) (s : Anim) : Anim :=
  {| gsap_calls := (gsap_calls s ++ [GsapTo target vars])%list;
     handlers := handlers s; warnings := warnings s;
     prevented := prevented s |}.
Definition addEventListener (element : Node) (type : EventType)
    (f : Handler) (s : Anim) : Anim :=
  {| gsap_calls := gsap_calls s;
     handlers := (handlers s ++ [(element, type, f)])%list;
     warnings := warnings s; prevented := prevented s |}.
Definition warn (msg : string) (s : Anim) : Anim :=
  {| gsap_calls := gsap_calls s; handlers := handlers s;
     warnings := (warnings s ++ [msg])%list; prevented := prevented s |}.
Definition preventDefault (element : Node) (s : Anim) : Anim :=
  {| gsap_calls := gsap_calls s; handlers := handlers s;
     warnings := warnings s;
     prevented := (prevented s ++ [element])%list |}.

(** Statements in sequence. *)
Definition seq (steps : list (Anim -> Anim)) (s : Anim) : Anim :=
  fold_left (fun acc step => step acc) steps s.

(** [list.forEach((element, i) => ...)], the index counted from [i]. *)
Fixpoint forEach_from (i : nat) (l : list Node)
    (f : Node -> nat -> Anim -> Anim) (s : Anim) : Anim :=
  match l with
  | [] => s
  | element :: l' => forEach_from (S i) l' f (f element i s)
  end.
Definition forEach (l : list Node) (f : Node -> nat -> Anim -> Anim)
    : Anim -> Anim :=
  forEach_from 0 l f.

Section Ready.
Variable doc : Document.

(** The listener of [DOMContentLoaded], line 174. *)
Definition ready : Anim -> Anim :=
  if negb (gsap_defined doc) then
    warn "GSAP not loaded, skipping animations"
  else seq [
    gsap_from (Selector ".logo")
      [("opacity", Num 0); ("y", Num (-20)); ("duration", Num 0.8);
       ("ease", Str "power2.out")];
    gsap_from (Selector ".nav-links a")
      [("opacity", Num 0); ("y", Num (-20)); ("duration", Num 0.6);
       ("stagger", Num 0.1); ("ease", Str "power2.out"); ("delay", Num 0.3)];
    gsap_from (Selector ".badge")
      [("opacity", Num 0); ("y", Num 30); ("duration", Num 0.8);
       ("ease", Str "power2.out"); ("delay", Num 0.2)];
    gsap_from (Selector ".hero-title")
      [("opacity", Num 0); ("y", Num 40); ("duration", Num 1);
       ("ease", Str "power2.out"); ("delay", Num 0.4)];
    gsap_from (Selector ".hero-description")
      [("opacity", Num 0); ("y", Num 30); ("duration", Num 0.8);
       ("ease", Str "power2.out"); ("delay", Num 0.6)];
    gsap_from (Selector ".hero-buttons .btn")
      [("opacity", Num 0); ("y", Num 20); ("duration", Num 0.6);
       ("stagger", Num 0.15); ("ease", Str "power2.out"); ("delay", Num 0.8)];
    forEach (feature_cards doc) (fun card i =>
      gsap_from (Element (Some card))
        [("scrollTrigger",
          Obj [("trigger", Tgt (Element (Some card)));
               ("start", Str "top 85%");
               ("toggleActions", Str "play none none none")]);
         ("opacity", Num 0); ("y", Num 50); ("duration", Num 0.8);
         ("delay", Num (INR i * 0.15)); ("ease", Str "power2.out")]);
    gsap_from (Selector ".technical-content")
      [("scrollTrigger",
        Obj [("trigger", Tgt (Selector ".technical-content"));
             ("start", Str "top 80%");
             ("toggleActions", Str "play none none none")]);
       ("opacity", Num 0); ("x", Num (-50)); ("duration", Num 0.8);
       ("ease", Str "power2.out")];
    gsap_from (Selector ".stats-card")
      [("scrollTrigger",
        Obj [("trigger", Tgt (Selector ".stats-card"));
             ("start", Str "top 80%");
             ("toggleActions", Str "play none none none")]);
       ("opacity", Num 0); ("x", Num 50); ("duration", Num 0.8);
       ("ease", Str "power2.out")];
    forEach (stat_items doc) (fun item i =>
      gsap_from (Element (Some item))
        [("scrollTrigger",
          Obj [("trigger", Tgt (Element (Some item)));
               ("start", Str "top 85%");
               ("toggleActions", Str "play none none none")]);
         ("opacity", Num 0); ("y", Num 20); ("duration", Num 0.6);
         ("delay", Num (INR i * 0.1)); ("ease", Str "power2.out")]);
    forEach (btns doc) (fun btn _ => seq [
      addEventListener btn mouseenter (btn_enter btn);
      addEventListener btn mouseleave (btn_leave btn)]);
    forEach (feature_cards doc) (fun card _ =>
      let number := feature_number doc card in
      seq [
        addEventListener card mouseenter (card_enter card number);
        addEventListener card mouseleave (card_leave card number)]);
    forEach (hash_anchors doc) (fun anchor _ =>
      addEventListener anchor click (anchor_click anchor))
  ].

(** The bodies of the listeners, lines 290-353. *)
Definition run_handler (f : Handler) : Anim -> Anim :=
  match f with
  | btn_enter btn =>
      gsap_to (Element (Some btn))
        [("scale", Num 1.05); ("duration", Num 0.3);
         ("ease", Str "power2.out")]
  | btn_leave btn =>
      gsap_to (Element (Some btn))
        [("scale", Num 1); ("duration", Num 0.3);
         ("ease", Str "power2.out")]
  | card_enter card number => seq [
      gsap_to (Element (Some card))
        [("y", Num (-8)); ("duration", Num 0.4); ("ease", Str "power2.out")];
      gsap_to (Element number)
        [("scale", Num 1.1); ("duration", Num 0.3);
         ("ease", Str "power2.out")]]
  | card_leave card number => seq [
      gsap_to (Element (Some card))
        [("y", Num 0); ("duration", Num 0.4); ("ease", Str "power2.out")];
      gsap_to (Element number)
        [("scale", Num 1); ("duration", Num 0.3);
         ("ease", Str "power2.out")]]
  | anchor_click anchor => seq [
      preventDefault anchor;
      fun s =>
        let target := querySelector doc (href doc anchor) in
        match target with
        | Some _ =>
            gsap_to Window
              [("duration", Num 1);
               ("scrollTo",
                Obj [("y", Tgt (Element target)); ("offsetY", Num 80)]);
               ("ease", Str "power2.inOut")] s
        | None => s
        end]
  end.

(** An event of type [type] arrives at [element]: the listeners added on
    that element for that type run in the order they were added.  This is
    what the event does at one element on its way; [propagate] below
    takes it along its whole way. *)
Definition listens (element : Node) (type : EventType)
    (entry : Node * EventType * Handler) : bool :=
  let '(e, t, _) := entry in
  Nat.eqb e element
  && match t, type with
     | mouseenter, mouseenter | mouseleave, mouseleave | click, click => true
     | _, _ => false
     end.

Definition fire (event : Node * EventType) (s : Anim) : Anim :=
  let (element, type) := event in
  seq (map (fun entry => run_handler (snd entry))
           (filter (listens element type) (handlers s))) s.

(** The document is ready, then events arrive at elements, in order. *)
Definition session (events : list (Node * EventType)) : Anim :=
  seq (map fire events) (ready start).

(** An event's way through the document.  [path] is the event's target
    followed by its ancestors, innermost first.  A [click] bubbles: after
    the target's listeners those of each ancestor run, going outwards.
    [mouseenter] and [mouseleave] do not bubble: only the target's
    listeners run. *)
Definition propagate (path : list Node) (type : EventType) : Anim -> Anim :=
  match type with
  | click => seq (map (fun element => fire (element, click)) path)
  | mouseenter | mouseleave =>
      match path with
      | target :: _ => fire (target, type)
      | [] => fun s => s
      end
  end.

End Ready.

Definition is_from (c : GsapCall) : bool :=
  match c with GsapFrom _ _ => true | GsapTo _ _ => false end.

Definition target_of (c : GsapCall) : Target :=
  match c with GsapFrom target _ | GsapTo target _ => target end.

(** The script adds a listener of this type to this element: clicks on the
    anchors that point into the page, hovers on buttons and feature
    cards. *)
Definition has_listener (doc : Document) (element : Node)
    (type : EventType) : Prop :=
  match type with
  | click => In element (hash_anchors doc)
  | mouseenter | mouseleave =>
      In element (btns doc) \/ In element (feature_cards doc)
  end.

(** Some element the event arrives at has a listener of its type: for a
    click the target or one of its ancestors, for a hover the target. *)
Definition heard_on (doc : Document) (path : list Node)
    (type : EventType) : Prop :=
  match type with
  | click =>
      exists element, In element path /\ has_listener doc element click
  | mouseenter | mouseleave =>
      match path with
      | target :: _ => has_listener doc target type
      | [] => False
      end
  end.

(** The scroll that a click on an anchor asks for, line 345. *)
Definition scroll_to (target : Node) : GsapCall :=
  GsapTo Window
    [("duration", Num 1);
     ("scrollTo",
      Obj [("y", Tgt (Element (Some target))); ("offsetY", Num 80)]);
     ("ease", Str "power2.inOut")].

End Animations.

(* ===================================================================== *)
(** ** Measures used in the statements on the whole page                 *)
(* ===================================================================== *)

Module Measures.
Import GLSL Shader Page.

(** The point of the integer lattice at [(i, j)]. *)
Definition lattice (i j : Z) : vec2 := Vec2 (IZR i) (IZR j).

(** The colour channels of a [vec4]. *)
Definition rgb (v : vec4) : vec3 := Vec3 (x4 v) (y4 v) (z4 v).

(** [vignette] of [main], line 85. *)
Definition vignette (u : Uniforms) (c : vec4) : R :=
  1.0 - length (vsubs (main_uv u c) 0.5) * 0.7.

(** All five answers the script needs are favourable. *)
Definition setup_succeeds (host : Host) : bool :=
  (getContext host "webgl" || getContext host "experimental-webgl")
  && COMPILE_STATUS host VERTEX_SHADER && COMPILE_STATUS host FRAGMENT_SHADER
  && LINK_STATUS host.

Definition context_available (host : Host) : bool :=
  getContext host "webgl" || getContext host "experimental-webgl".

(** The calls one event gives rise to on a running page whose render loop
    started when the clock read [startTime]. *)
Definition event_calls (startTime : Z) (e : HostEvent) : list Call :=
  match e with
  | WindowResize w h =>
      [Viewport 0 0 w h; Uniform2f (Some U_resolution) (IZR w) (IZR h)]
  | AnimationFrame now =>
      [Uniform1f (Some U_time) (IZR (now - startTime) * 0.001);
       DrawArrays TRIANGLE_STRIP 0 4]
  end.

Definition is_frame (e : HostEvent) : bool :=
  match e with AnimationFrame _ => true | WindowResize _ _ => false end.

(** The number of display refreshes among the events. *)
Definition frames (events : list HostEvent) : nat :=
  List.length (filter is_frame events).

(** The number of draw calls made so far. *)
Definition draws (s : State) : nat := List.length (filter is_draw (calls s)).

Definition is_strip (c : Call) : bool :=
  match c with
  | DrawArrays TRIANGLE_STRIP 0 4 => true
  | DrawArrays _ _ _ => false
  | _ => true
  end.

(** The calls that [resize] and [render] make. *)
Definition is_upload_or_draw (c : Call) : bool :=
  match c with
  | Viewport _ _ _ _ | Uniform2f _ _ _ | Uniform1f _ _ | DrawArrays _ _ _ =>
      true
  | _ => false
  end.

Definition is_delete (type : ShaderType) (c : Call) : bool :=
  match c, type with
  | DeleteShader VERTEX_SHADER, VERTEX_SHADER
  | DeleteShader FRAGMENT_SHADER, FRAGMENT_SHADER => true
  | _, _ => false
  end.
Definition is_compile_of (type : ShaderType) (c : Call) : bool :=
  match c, type with
  | CompileShader VERTEX_SHADER, VERTEX_SHADER
  | CompileShader FRAGMENT_SHADER, FRAGMENT_SHADER => true
  | _, _ => false
  end.
Definition is_probe (id : string) (c : Call) : bool :=
  match c with GetContext i => String.eqb i id | _ => false end.
Definition is_use (c : Call) : bool :=
  match c with UseProgram => true | _ => false end.

End Measures.

(* ===================================================================== *)
(** ** Properties of the shader                                          *)
(* ===================================================================== *)

Import GLSL Shader Reading.

(** Decimal literals of the shader, opened for [ring] and [field]. *)
Ltac decimals := unfold Q2R; cbn [QArith_base.Qnum QArith_base.Qden].

(** *** Vectors *)

Lemma vec2_eq (p q : vec2) : vx p = vx q -> vy p = vy q -> p = q.
Proof. destruct p, q; simpl; intros -> ->; reflexivity. Qed.

Lemma vadd_zero (p : vec2) : vadd p (Vec2 0 0) = p.
Proof. apply vec2_eq; simpl; lra. Qed.

Lemma vsub_zero (p : vec2) : vsub p (Vec2 0 0) = p.
Proof. apply vec2_eq; simpl; lra. Qed.

(** *** [floor] and [fract] *)

(** Two numbers with the same fractional part differ by an integer. *)
Lemma fract_eq_integer (x y : R) :
  fract x = fract y -> exists n : Z, x - y = IZR n.
Proof.
  unfold fract, floor. intros E.
  exists (Zfloor x - Zfloor y)%Z. rewrite minus_IZR. lra.
Qed.

(** An integer strictly between -1 and 1 is 0. *)
Lemma small_integer (n : Z) : Rabs (IZR n) < 1 -> n = 0%Z.
Proof.
  intros H. apply Rabs_def2 in H. destruct H as [Hlt Hgt].
  assert (Hgt' : IZR (-1) < IZR n) by lra.
  apply lt_IZR in Hlt. apply lt_IZR in Hgt'. lia.
Qed.

(** *** The interpolation *)

Lemma mix_is_bilinear (a b c d u v : R) :
  mix (mix a b u) (mix c d u) v = bilinear a b c d u v.
Proof. unfold mix, bilinear. ring. Qed.

(** C5. For every point [p], [smoothNoise p] is the bilinear interpolation
    between the hashes [noise i], [noise (i + (1,0))], [noise (i + (0,1))]
    and [noise (i + (1,1))] at the corners of the unit cell [i = floor p],
    with weights [t*t*(3 - 2*t)] at [t] the fractional parts of [p]. *)
Theorem smoothNoise_bilinear (p : vec2) : smoothNoise p = smoothNoise_spec p.
Proof.
  unfold smoothNoise, smoothNoise_spec. cbv zeta.
  rewrite mix_is_bilinear.
  replace (Vec2 1.0 0.0) with (Vec2 1 0) by (apply vec2_eq; simpl; lra).
  replace (Vec2 0.0 1.0) with (Vec2 0 1) by (apply vec2_eq; simpl; lra).
  replace (Vec2 1.0 1.0) with (Vec2 1 1) by (apply vec2_eq; simpl; lra).
  f_equal; unfold ease; simpl; decimals; field.
Qed.

(** The loop of [fbm] after [n] rounds, from any value, amplitude and
    frequency: round [i] adds the amplitude halved [i] times, applied to
    the smoothed noise at the frequency doubled [i] times. *)
Lemma fbm_loop_sum (p : vec2) (n : nat) : forall value amplitude frequency,
  fbm_loop n p value amplitude frequency
  = value + sum_below n (fun i =>
      (amplitude * 2 * octave_amplitude i)
      * smoothNoise (vscale p (frequency * octave_frequency i))).
Proof.
  induction n as [| n IH]; intros value amplitude frequency.
  - simpl. lra.
  - cbn [fbm_loop]. cbv zeta. rewrite IH.
    assert (shift : forall m a f,
      a * smoothNoise (vscale p f)
      + sum_below m (fun i => (a * 0.5 * 2 * octave_amplitude i)
          * smoothNoise (vscale p (f * 2.0 * octave_frequency i)))
      = sum_below (S m) (fun i => (a * 2 * octave_amplitude i)
          * smoothNoise (vscale p (f * octave_frequency i)))).
    { induction m as [| m IHm]; intros a f.
      - simpl. replace (f * 1) with f by lra. lra.
      - cbn [sum_below]. cbn [sum_below] in IHm.
        rewrite <- Rplus_assoc, IHm. cbn [octave_amplitude octave_frequency].
        replace (f * 2.0 * octave_frequency m)
          with (f * (2 * octave_frequency m)) by lra.
        replace (a * 0.5 * 2 * octave_amplitude m)
          with (a * 2 * (octave_amplitude m / 2)) by lra.
        reflexivity. }
    rewrite Rplus_assoc, shift. reflexivity.
Qed.

(** The five rounds of [fbm], summed. *)
Lemma fbm_unrolled (p : vec2) : fbm p = fbm_spec p.
Proof.
  unfold fbm, fbm_spec. rewrite fbm_loop_sum.
  unfold sum_below, octave.
  repeat match goal with
  | |- context [0.5 * 2 * octave_amplitude ?i] =>
      replace (0.5 * 2 * octave_amplitude i) with (octave_amplitude i) by lra
  | |- context [1.0 * octave_frequency ?i] =>
      replace (1.0 * octave_frequency i) with (octave_frequency i) by lra
  end.
  lra.
Qed.

(** C4. For every point [p], [fbm p] is the sum over the five octaves
    [i = 0..4] of [amplitude_i * smoothNoise (p * frequency_i)], with
    [amplitude_0 = 0.5], [frequency_0 = 1], the amplitude halved and the
    frequency doubled from one octave to the next. *)
Theorem fbm_five_octaves (p : vec2) :
  fbm p = fbm_spec p
  /\ octave_amplitude 0 = 0.5 /\ octave_frequency 0 = 1
  /\ (forall i, octave_amplitude (S i) = octave_amplitude i / 2)
  /\ (forall i, octave_frequency (S i) = 2 * octave_frequency i).
Proof.
  split; [apply fbm_unrolled | repeat split].
Qed.

(** C8. At elapsed time 0 the two fields are sampled at their base
    coordinates: [wave1] is [fbm (p + (0,0))], which is [fbm p], and
    [wave2] is [fbm (p * 1.5 - (0,0))], which is [fbm (p * 1.5)]. *)
Theorem waves_unshifted_at_start (p : vec2) :
  wave1 0 p = fbm (vadd p (Vec2 0 0))
  /\ fbm (vadd p (Vec2 0 0)) = fbm p
  /\ wave2 0 p = fbm (vsub (vscale p 1.5) (Vec2 0 0))
  /\ fbm (vsub (vscale p 1.5) (Vec2 0 0)) = fbm (vscale p 1.5).
Proof.
  unfold wave1, wave2. repeat split.
  - f_equal. f_equal. apply vec2_eq; simpl; lra.
  - rewrite vadd_zero. reflexivity.
  - f_equal. f_equal. apply vec2_eq; simpl; lra.
  - rewrite vsub_zero. reflexivity.
Qed.

(** C10. For every uniform value and every fragment coordinate, the alpha
    component of the colour written by [main] is 1. *)
Theorem main_opaque (u : Uniforms) (gl_FragCoord : vec4) :
  w4 (main u gl_FragCoord) = 1.
Proof. unfold main. cbv zeta. unfold vec4_of. cbn [w4]. lra. Qed.

(** *** The dither is not the sine hash *)

Lemma Rabs_sin_le (x : R) : Rabs (sin x) <= Rabs x.
Proof.
  assert (pos : forall y, 0 < y -> Rabs (sin y) <= y).
  { intros y Hy. apply Rabs_le. split; [| left; apply sin_lt_x; exact Hy].
    destruct (Rle_dec y 1) as [Hle | Hgt].
    - assert (0 <= sin y); [| lra].
      apply sin_ge_0; [lra |]. generalize PI2_1. lra.
    - generalize (SIN_bound y). lra. }
  destruct (Rtotal_order x 0) as [Hneg | [-> | Hpos]].
  - rewrite <- (Ropp_involutive x) at 1. rewrite sin_neg, Rabs_Ropp.
    rewrite (Rabs_left x Hneg). apply pos. lra.
  - rewrite sin_0. lra.
  - rewrite (Rabs_right x) by lra. apply pos. exact Hpos.
Qed.

Lemma sin_lipschitz (a b : R) : Rabs (sin a - sin b) <= Rabs (a - b).
Proof.
  rewrite form4, !Rabs_mult.
  generalize (Rabs_sin_le ((a - b) / 2)) (COS_bound ((a + b) / 2)).
  intros Hs Hc.
  assert (Hc' : Rabs (cos ((a + b) / 2)) <= 1) by (apply Rabs_le; lra).
  replace (Rabs ((a - b) / 2)) with (Rabs (a - b) / 2) in Hs.
  2:{ unfold Rdiv. rewrite Rabs_mult, (Rabs_right (/ 2)) by lra. reflexivity. }
  rewrite (Rabs_right 2) by lra.
  generalize (Rabs_pos (sin ((a - b) / 2))) (Rabs_pos (cos ((a + b) / 2))).
  intros P1 P2. nra.
Qed.

(** A line of positive slope minus a bounded sine is not integer-valued:
    in steps of [1 / (2 * (A + C * |B|))] the difference moves by at most
    one half, so it would stay at its value 0 at the origin, while the line
    leaves every bound. *)
Lemma line_minus_sine_not_integer (A B C : R) :
  0 < A -> 0 <= C ->
  ~ (forall t : R, exists n : Z, A * t - C * sin (B * t) = IZR n).
Proof.
  intros HA HC H.
  set (L := A + C * Rabs B).
  assert (HL : 0 < L).
  { unfold L. generalize (Rabs_pos B). intros. nra. }
  set (h := / (2 * L)).
  assert (Hh : 0 < h) by (apply Rinv_0_lt_compat; lra).
  assert (HLh : L * h = / 2) by (unfold h; field; lra).
  assert (step : forall t,
    Rabs ((A * (t + h) - C * sin (B * (t + h))) - (A * t - C * sin (B * t)))
    <= / 2).
  { intros t.
    replace ((A * (t + h) - C * sin (B * (t + h))) - (A * t - C * sin (B * t)))
      with (A * h + - (C * (sin (B * (t + h)) - sin (B * t)))) by ring.
    eapply Rle_trans; [apply Rabs_triang |].
    rewrite (Rabs_right (A * h)), Rabs_Ropp, Rabs_mult, (Rabs_right C);
      [| lra | nra].
    generalize (sin_lipschitz (B * (t + h)) (B * t)).
    replace (B * (t + h) - B * t) with (B * h) by ring.
    rewrite Rabs_mult, (Rabs_right h) by lra. intros Hs.
    rewrite <- HLh. unfold L.
    generalize (Rabs_pos B). intros. nra. }
  assert (still : forall k : nat,
    A * (INR k * h) - C * sin (B * (INR k * h)) = 0).
  { induction k as [| k IH].
    - simpl. rewrite Rmult_0_l, !Rmult_0_r, sin_0. ring.
    - rewrite S_INR.
      replace ((INR k + 1) * h) with (INR k * h + h) by ring.
      destruct (H (INR k * h + h)) as [n2 E2].
      destruct (H (INR k * h)) as [n1 E1].
      generalize (step (INR k * h)). rewrite E2, E1, <- minus_IZR.
      intros Hs. assert (Z0 : (n2 - n1 = 0)%Z) by (apply small_integer; lra).
      rewrite E1 in IH. apply eq_IZR in IH.
      f_equal. lia. }
  destruct (INR_unbounded ((C + 1) / (A * h))) as [k Hk].
  assert (HAh : 0 < A * h) by (apply Rmult_lt_0_compat; lra).
  assert (far : C + 1 < A * (INR k * h)).
  { apply (Rmult_lt_compat_r (A * h)) in Hk; [| exact HAh].
    unfold Rdiv in Hk. rewrite Rmult_assoc, Rinv_l in Hk by lra. lra. }
  generalize (still k) (SIN_bound (B * (INR k * h))). intros. nra.
Qed.

(** C3 as it is stated does not hold: whatever the scaling [s], [dither]
    and [noise] after scaling differ at some coordinate, because [dither]
    takes the fractional part of the scaled dot product itself and [noise]
    that of its sine. *)
Lemma dither_not_scaled_noise :
  ~ (dither_is_scaled_noise /\ dither_weighted).
Proof.
  intros [[s H] _].
  apply (line_minus_sine_not_integer
           (0.129898 * 43758.5453) (vx s * 12.9898) 43758.5453); [lra | lra |].
  intros t. specialize (H (Vec2 t 0)).
  unfold dither, noise in H. apply fract_eq_integer in H.
  destruct H as [n Hn]. exists n. rewrite <- Hn.
  unfold dot, vmul. cbn [vx vy].
  replace (t * vx s * 12.9898 + 0 * vy s * 78.233)
    with (vx s * 12.9898 * t) by ring.
  lra.
Qed.

(** The sine at the dot product of the first pixel's centre scaled by
    0.01, between the Taylor sums of degree 7 and 9. *)
Lemma sin_first_pixel : 0.4404627 < sin 0.456114 < 0.4404628.
Proof.
  destruct (SIN 0.456114) as [Hlo Hhi]; [lra | generalize PI2_1; lra |].
  unfold sin_lb, sin_ub, sin_approx in Hlo, Hhi.
  cbn [sum_f_R0] in Hlo, Hhi. unfold sin_term in Hlo, Hhi.
  cbn [pow Nat.add Nat.mul] in Hlo, Hhi.
  rewrite !INR_IZR_INZ in Hlo, Hhi.
  change (Z.of_nat (fact 1)) with 1%Z in Hlo, Hhi.
  change (Z.of_nat (fact 3)) with 6%Z in Hlo, Hhi.
  change (Z.of_nat (fact 5)) with 120%Z in Hlo, Hhi.
  change (Z.of_nat (fact 7)) with 5040%Z in Hlo, Hhi.
  rewrite (INR_IZR_INZ (fact 9)) in Hhi.
  change (Z.of_nat (fact 9)) with 362880%Z in Hhi.
  split; lra.
Qed.

(** At the centre of the first pixel, with the scaling 0.01 that the
    constants of [dither] suggest: [dither] is above 0.88 (it is
    0.8851...), [noise] of the scaled coordinate is below 0.02 (it is
    0.0070...). *)
Example dither_differs_at_first_pixel :
  0.88 < dither (Vec2 0.5 0.5)
  /\ noise (vscale (Vec2 0.5 0.5) 0.01) < 0.02
  /\ dither (Vec2 0.5 0.5) <> noise (vscale (Vec2 0.5 0.5) 0.01).
Proof.
  assert (D : 0.88 < dither (Vec2 0.5 0.5)).
  { unfold dither, dot, fract, floor. cbn [vx vy].
    rewrite (Zfloor_eq 19958) by lra. lra. }
  assert (N : noise (vscale (Vec2 0.5 0.5) 0.01) < 0.02).
  { unfold noise, dot, vscale, fract, floor. cbn [vx vy].
    replace (0.5 * 0.01 * 12.9898 + 0.5 * 0.01 * 78.233) with 0.456114 by lra.
    destruct sin_first_pixel as [Hlo Hhi].
    rewrite (Zfloor_eq 19274) by lra. lra. }
  repeat split; [exact D | exact N | lra].
Qed.

(** C3, amended. For every coordinate [p], [dither p] is the hash of
    [noise] without the sine (the fractional part of the dot product times
    43758.5453, where [noise] takes that of the sine of the dot product),
    at the coordinate scaled by 0.01; and [main] adds it to the blended
    scalar at weight 0.08. *)
Theorem dither_is_sineless_hash :
  (forall p, noise p = hash sin p)
  /\ (forall p, dither p = hash (fun x => x) (vscale p 0.01))
  /\ dither_weighted.
Proof.
  split; [reflexivity | split].
  - intros p. unfold dither, hash, dot. cbn [vx vy vscale]. f_equal. lra.
  - intros u c. unfold pattern, ditherValue. lra.
Qed.

(* ===================================================================== *)
(** ** Properties of the script                                          *)
(* ===================================================================== *)

Import Page.

(** *** Running the monad *)

Lemma exec_bind {A B : Type} (m : M A) (k : A -> M B) (s : State) :
  exec (bind m k) s = exec (k (fst (m s))) (snd (m s)).
Proof. unfold exec, bind. destruct (m s). reflexivity. Qed.

Lemma exec_for_each_cons {A : Type} (f : A -> M unit) (a : A) (l : list A)
    (s : State) :
  exec (for_each f (a :: l)) s = exec (for_each f l) (exec (f a) s).
Proof. cbn [for_each]. rewrite exec_bind. reflexivity. Qed.

(** *** The fallback *)

Lemma classList_added (token : string) (l : list string) :
  In token (if existsb (String.eqb token) l then l else (l ++ [token])%list).
Proof.
  destruct (existsb (String.eqb token) l) eqn:E.
  - apply existsb_exists in E. destruct E as [x [Hin Heq]].
    apply String.eqb_eq in Heq. subst x. exact Hin.
  - apply in_or_app. right. left. reflexivity.
Qed.

Lemma classList_add_In (token : string) (s : State) :
  In token (fallback_classList (exec (classList_add token) s)).
Proof. apply classList_added. Qed.

Lemma use_fallback_shown (s : State) : fallback_shown (exec use_fallback s).
Proof.
  unfold use_fallback. rewrite exec_bind. split.
  - generalize (classList_add_In "active" s).
    unfold exec, style_display, modify. cbn. tauto.
  - reflexivity.
Qed.

(** The fallback touches the document only. *)
Lemma use_fallback_frame (s : State) :
  calls (exec use_fallback s) = calls s
  /\ resize_listeners (exec use_fallback s) = resize_listeners s
  /\ frame_callbacks (exec use_fallback s) = frame_callbacks s.
Proof.
  unfold use_fallback, classList_add, style_display, exec, bind, modify.
  cbn. auto.
Qed.

(** *** Events on a halted page *)

Lemma dispatch_halted (e : HostEvent) (s : State) :
  halted s ->
  halted (exec (dispatch e) s)
  /\ calls (exec (dispatch e) s) = calls s
  /\ fallback_classList (exec (dispatch e) s) = fallback_classList s
  /\ canvas_display (exec (dispatch e) s) = canvas_display s.
Proof.
  intros [Hr Hf]. unfold halted.
  destruct e as [w h | now]; unfold dispatch, exec, bind, modify, get; cbn.
  - rewrite Hr. cbn. auto.
  - rewrite Hf. cbn. auto.
Qed.

Lemma events_halted (events : list HostEvent) :
  forall s, halted s ->
  halted (exec (for_each dispatch events) s)
  /\ calls (exec (for_each dispatch events) s) = calls s
  /\ fallback_classList (exec (for_each dispatch events) s)
     = fallback_classList s
  /\ canvas_display (exec (for_each dispatch events) s) = canvas_display s.
Proof.
  induction events as [| e events IH]; intros s Hs.
  - cbn. auto.
  - rewrite exec_for_each_cons.
    destruct (dispatch_halted e s Hs) as (H1 & H2 & H3 & H4).
    destruct (IH _ H1) as (I1 & I2 & I3 & I4).
    rewrite I2, I3, I4. auto.
Qed.

Lemma exec_for_each_app {A : Type} (f : A -> M unit) (l1 l2 : list A) :
  forall s,
  exec (for_each f (l1 ++ l2)) s = exec (for_each f l2) (exec (for_each f l1) s).
Proof.
  induction l1 as [| a l1 IH]; intros s.
  - reflexivity.
  - cbn [app]. rewrite !exec_for_each_cons. apply IH.
Qed.

Lemma exec_page (host : Host) (events : list HostEvent) (s : State) :
  exec (page host events) s = exec (for_each dispatch events) (exec (iife host) s).
Proof. unfold page. rewrite exec_bind. reflexivity. Qed.

(** *** The script branches on five answers of the host *)

Lemma iife_answers (host : Host) :
  iife host
  = iife (answers (getContext host "webgl")
                  (getContext host "experimental-webgl")
                  (COMPILE_STATUS host VERTEX_SHADER)
                  (COMPILE_STATUS host FRAGMENT_SHADER)
                  (LINK_STATUS host)).
Proof. reflexivity. Qed.

(** [compileShader] returns [null] exactly when the stage's
    [COMPILE_STATUS] is false. *)
Lemma compileShader_null (host : Host) (source : Source) (type : ShaderType)
    (s : State) :
  fst (compileShader host source type s) = None
  <-> COMPILE_STATUS host type = false.
Proof.
  unfold compileShader, bind, call, modify. cbn.
  destruct (COMPILE_STATUS host type); cbn; split; intros H;
    solve [reflexivity | discriminate H].
Qed.

Lemma never_existsb (kind : Call -> bool) (s : State) :
  existsb kind (calls s) = false -> never kind s.
Proof.
  intros H c Hin. destruct (kind c) eqn:E; [| reflexivity].
  rewrite <- H. symmetry. apply existsb_exists. exists c. split; assumption.
Qed.

Lemma never_same_calls (kind : Call -> bool) (s s' : State) :
  calls s' = calls s -> never kind s -> never kind s'.
Proof. unfold never. intros ->. auto. Qed.

(** When a probe, a compilation or the link fails, the script ends with
    the fallback shown, nothing registered with the host and no draw call
    made; without a context nothing is compiled, and without both stages
    compiled nothing is linked. *)
Lemma failed_setup (host : Host) (classes : list string) (display : string)
    (w h now : Z) :
  (getContext host "webgl" || getContext host "experimental-webgl")
  && COMPILE_STATUS host VERTEX_SHADER && COMPILE_STATUS host FRAGMENT_SHADER
  && LINK_STATUS host = false ->
  let s := exec (iife host) (fresh classes display w h now) in
  fallback_shown s /\ halted s /\ never is_draw s
  /\ (getContext host "webgl" || getContext host "experimental-webgl" = false ->
      calls s = [GetContext "webgl"; GetContext "experimental-webgl"])
  /\ (COMPILE_STATUS host VERTEX_SHADER && COMPILE_STATUS host FRAGMENT_SHADER
      = false -> never is_link s).
Proof.
  rewrite iife_answers.
  destruct (getContext host "webgl"), (getContext host "experimental-webgl"),
    (COMPILE_STATUS host VERTEX_SHADER), (COMPILE_STATUS host FRAGMENT_SHADER),
    (LINK_STATUS host); cbn [orb andb]; intros Hf; try discriminate Hf;
    clear Hf; cbv zeta.
  all: split; [split; [apply (classList_added "active" classes) | reflexivity] |].
  all: split; [split; reflexivity |].
  all: split; [apply never_existsb; reflexivity |].
  all: split; intros Hc; try discriminate Hc; try reflexivity.
  all: apply never_existsb; reflexivity.
Qed.

(** C1. If neither ['webgl'] nor ['experimental-webgl'] yields a context,
    then, whatever events the host delivers afterwards, the fallback
    element has the class ['active'], the canvas has display ['none'], and
    the script has stopped after the two probes: no shader was compiled, no
    program linked, no draw call made. *)
Theorem no_context_fallback (host : Host) (classes : list string)
    (display : string) (w h now : Z) (events : list HostEvent) :
  getContext host "webgl" = false ->
  getContext host "experimental-webgl" = false ->
  let s := exec (page host events) (fresh classes display w h now) in
  fallback_shown s
  /\ calls s = [GetContext "webgl"; GetContext "experimental-webgl"]
  /\ never is_compile s /\ never is_link s /\ never is_draw s.
Proof.
  intros Hw He. cbv zeta. rewrite exec_page.
  destruct (failed_setup host classes display w h now) as (F & Hh & _ & C & _).
  { rewrite Hw, He. reflexivity. }
  specialize (C ltac:(rewrite Hw, He; reflexivity)).
  destruct (events_halted events _ Hh) as (_ & E1 & E2 & E3).
  destruct F as [F1 F2].
  split; [split; [rewrite E2; exact F1 | rewrite E3; exact F2] |].
  rewrite E1, C.
  split; [reflexivity |].
  repeat split; apply never_existsb; rewrite E1, C; reflexivity.
Qed.

Lemma no_context_fallback_witness :
  let host := answers false false true true true in
  let s := exec (page host [WindowResize 800 600; AnimationFrame 2500])
                (fresh [] "block" 1024 768 0) in
  getContext host "webgl" = false
  /\ getContext host "experimental-webgl" = false
  /\ fallback_shown s
  /\ calls s = [GetContext "webgl"; GetContext "experimental-webgl"]
  /\ never is_compile s /\ never is_link s /\ never is_draw s.
Proof.
  cbv zeta. split; [reflexivity | split; [reflexivity |]].
  apply no_context_fallback; reflexivity.
Defined.

(** C2. If the vertex stage or the fragment stage fails to compile (its
    [COMPILE_STATUS] is false, so [compileShader] returns [null] for it),
    then, whatever events the host delivers afterwards, [linkProgram] is
    never called, the fallback element has the class ['active'] and the
    canvas has display ['none']. *)
Theorem compile_failure_fallback (host : Host) (classes : list string)
    (display : string) (w h now : Z) (events : list HostEvent) :
  COMPILE_STATUS host VERTEX_SHADER = false
  \/ COMPILE_STATUS host FRAGMENT_SHADER = false ->
  let s := exec (page host events) (fresh classes display w h now) in
  never is_link s /\ fallback_shown s.
Proof.
  intros Hc. cbv zeta. rewrite exec_page.
  assert (Hb : COMPILE_STATUS host VERTEX_SHADER
               && COMPILE_STATUS host FRAGMENT_SHADER = false).
  { destruct Hc as [-> | ->]; [reflexivity | apply andb_false_r]. }
  destruct (failed_setup host classes display w h now) as (F & Hh & _ & _ & L).
  { rewrite <- !andb_assoc, (andb_assoc (COMPILE_STATUS host VERTEX_SHADER)), Hb.
    cbn. apply andb_false_r. }
  specialize (L Hb).
  destruct (events_halted events _ Hh) as (_ & E1 & E2 & E3).
  destruct F as [F1 F2].
  split; [exact (never_same_calls _ _ _ E1 L) |].
  split; [rewrite E2; exact F1 | rewrite E3; exact F2].
Qed.

Lemma compile_failure_fallback_witness :
  let host := answers true false true false true in
  let s := exec (page host [AnimationFrame 16; WindowResize 800 600])
                (fresh ["hero"%string] "block" 1024 768 0) in
  (COMPILE_STATUS host VERTEX_SHADER = false
   \/ COMPILE_STATUS host FRAGMENT_SHADER = false)
  /\ never is_link s /\ fallback_shown s.
Proof.
  cbv zeta. split; [right; reflexivity |].
  apply compile_failure_fallback. right. reflexivity.
Defined.

(** *** Resizing *)

(** What [resize] leaves behind when the window's size is not negative. *)
Lemma resize_effect (s : State) :
  (0 <= innerWidth s)%Z -> (0 <= innerHeight s)%Z ->
  let s' := exec (resize (uniform_location "u_resolution")) s in
  canvas_width s' = innerWidth s /\ canvas_height s' = innerHeight s
  /\ viewport s' = (0, 0, innerWidth s, innerHeight s)%Z
  /\ u_resolution (uniforms s')
     = Vec2 (IZR (innerWidth s)) (IZR (innerHeight s)).
Proof.
  intros Hw Hh. cbv zeta.
  unfold resize, gl_viewport, gl_uniform2f, exec, bind, get, modify, call.
  cbn.
  replace (innerWidth s <? 0)%Z with false by (symmetry; apply Z.ltb_ge; lia).
  replace (innerHeight s <? 0)%Z with false by (symmetry; apply Z.ltb_ge; lia).
  cbn. auto.
Qed.

(** C7. In a window that reports a width [w >= 1] and a height [h >= 1],
    after [resize] has run (with the location of [u_resolution] that the
    script looks up) the canvas is [w] by [h] pixels, the viewport is the
    rectangle at the origin of the same size, and the resolution uniform
    holds the same two numbers. *)
Theorem resize_matches_window (s : State) (w h : Z) :
  (1 <= w)%Z -> (1 <= h)%Z ->
  innerWidth s = w -> innerHeight s = h ->
  let s' := exec (resize (uniform_location "u_resolution")) s in
  canvas_width s' = w /\ canvas_height s' = h
  /\ viewport s' = (0, 0, w, h)%Z
  /\ u_resolution (uniforms s') = Vec2 (IZR w) (IZR h).
Proof.
  intros Hw Hh Ew Eh. cbv zeta. subst w h.
  apply resize_effect; lia.
Qed.

Lemma resize_matches_window_witness :
  let s := set_window 800 600 (fresh [] "block" 1024 768 0) in
  (1 <= 800)%Z /\ (1 <= 600)%Z
  /\ innerWidth s = 800%Z /\ innerHeight s = 600%Z
  /\ canvas_width (exec (resize (uniform_location "u_resolution")) s) = 800%Z
  /\ canvas_height (exec (resize (uniform_location "u_resolution")) s) = 600%Z
  /\ viewport (exec (resize (uniform_location "u_resolution")) s)
     = (0, 0, 800, 600)%Z
  /\ u_resolution (uniforms (exec (resize (uniform_location "u_resolution")) s))
     = Vec2 800 600.
Proof.
  cbv zeta. split; [lia | split; [lia |]].
  split; [reflexivity | split; [reflexivity |]].
  apply (resize_matches_window _ 800 600); [lia | lia | reflexivity | reflexivity].
Defined.

(** After a set-up that succeeded, the host holds the resize handler with
    the location of [u_resolution], and one pending [render]. *)
Lemma running_after_setup (host : Host) (classes : list string)
    (display : string) (w h now : Z) :
  (getContext host "webgl" || getContext host "experimental-webgl")
  && COMPILE_STATUS host VERTEX_SHADER && COMPILE_STATUS host FRAGMENT_SHADER
  && LINK_STATUS host = true ->
  let s := exec (iife host) (fresh classes display w h now) in
  resize_listeners s = [cb_resize (uniform_location "u_resolution")]
  /\ frame_callbacks s = [cb_render (uniform_location "u_time") now].
Proof.
  rewrite iife_answers.
  destruct (getContext host "webgl"), (getContext host "experimental-webgl"),
    (COMPILE_STATUS host VERTEX_SHADER), (COMPILE_STATUS host FRAGMENT_SHADER),
    (LINK_STATUS host); cbn [orb andb]; intros Hf; try discriminate Hf;
    clear Hf; cbv zeta; split; reflexivity.
Qed.

Lemma dispatch_running (e : HostEvent) (s : State) (now : Z) :
  resize_listeners s = [cb_resize (uniform_location "u_resolution")] ->
  frame_callbacks s = [cb_render (uniform_location "u_time") now] ->
  resize_listeners (exec (dispatch e) s)
  = [cb_resize (uniform_location "u_resolution")]
  /\ frame_callbacks (exec (dispatch e) s)
     = [cb_render (uniform_location "u_time") now].
Proof.
  intros Hr Hf.
  destruct e as [w h | t]; unfold dispatch, exec, bind, modify, get; cbn.
  - rewrite Hr. cbn. auto.
  - rewrite Hf. cbn. auto.
Qed.

Lemma events_running (events : list HostEvent) (now : Z) :
  forall s,
  resize_listeners s = [cb_resize (uniform_location "u_resolution")] ->
  frame_callbacks s = [cb_render (uniform_location "u_time") now] ->
  resize_listeners (exec (for_each dispatch events) s)
  = [cb_resize (uniform_location "u_resolution")]
  /\ frame_callbacks (exec (for_each dispatch events) s)
     = [cb_render (uniform_location "u_time") now].
Proof.
  induction events as [| e events IH]; intros s Hr Hf.
  - cbn. auto.
  - rewrite exec_for_each_cons.
    destruct (dispatch_running e s now Hr Hf) as [Hr' Hf'].
    apply IH; assumption.
Qed.

(** On a page whose set-up succeeded, a resize event to [w] by [h] (both
    at least 1) after any other events leaves the canvas, the viewport and
    the resolution uniform at [w] by [h]. *)
Lemma resize_event_matches_window (host : Host) (classes : list string)
    (display : string) (w0 h0 now : Z) (events : list HostEvent) (w h : Z) :
  (getContext host "webgl" || getContext host "experimental-webgl")
  && COMPILE_STATUS host VERTEX_SHADER && COMPILE_STATUS host FRAGMENT_SHADER
  && LINK_STATUS host = true ->
  (1 <= w)%Z -> (1 <= h)%Z ->
  let s := exec (page host (events ++ [WindowResize w h]))
                (fresh classes display w0 h0 now) in
  canvas_width s = w /\ canvas_height s = h
  /\ viewport s = (0, 0, w, h)%Z
  /\ u_resolution (uniforms s) = Vec2 (IZR w) (IZR h).
Proof.
  intros Hok Hw Hh. cbv zeta.
  rewrite exec_page, exec_for_each_app.
  destruct (running_after_setup host classes display w0 h0 now Hok) as [Hr Hf].
  destruct (events_running events now _ Hr Hf) as [Hr' _].
  set (s1 := exec (for_each dispatch events) _) in *. clearbody s1.
  rewrite exec_for_each_cons. cbn [for_each].
  change (exec (ret tt) ?x) with x.
  unfold dispatch. rewrite !exec_bind. unfold get, modify.
  cbn [fst snd resize_listeners set_window].
  rewrite Hr'. cbn [for_each run_callback]. rewrite exec_bind.
  change (exec (ret tt) ?x) with x.
  apply (resize_effect (set_window w h s1)); cbn; lia.
Qed.

(** The scenario of the specification: viewport 800 by 600, 2.5 seconds
    after the start. *)
Example scenario_800_600 :
  let s := exec (page (answers true false true true true) [AnimationFrame 2500])
                (fresh [] "block" 800 600 0) in
  u_resolution (uniforms s) = Vec2 800 600
  /\ u_time (uniforms s) = 2.5
  /\ last (calls s) BindBuffer = DrawArrays TRIANGLE_STRIP 0 4
  /\ count_occ Bool.bool_dec (map is_draw (calls s)) true = 2%nat.
Proof.
  cbv zeta. split; [reflexivity |]. split.
  - change (IZR (2500 - 0) * 0.001 = 2.5). simpl Z.sub. lra.
  - split; reflexivity.
Qed.

(* ===================================================================== *)
(** ** Further properties of the shader                                  *)
(* ===================================================================== *)

Import Measures.

Lemma floor_integer (n : Z) : floor (IZR n) = IZR n.
Proof. unfold floor. rewrite ZfloorZ. reflexivity. Qed.

Lemma fract_integer (n : Z) : fract (IZR n) = 0.
Proof. unfold fract. rewrite floor_integer. lra. Qed.

Lemma smoothNoise_integer (i j : Z) :
  smoothNoise (Vec2 (IZR i) (IZR j)) = noise (Vec2 (IZR i) (IZR j)).
Proof.
  unfold smoothNoise, floor2, fract2. cbv zeta. cbn [vx vy vmul].
  rewrite !floor_integer, !fract_integer. unfold mix.
  set (a := noise _). set (b := noise _). set (c := noise _). set (d := noise _).
  lra.
Qed.

(** At a point of the integer lattice the smoothed noise is the hash of
    that point: the interpolation passes through the corner values. *)
Theorem smoothNoise_at_lattice (i j : Z) :
  smoothNoise (lattice i j) = noise (lattice i j).
Proof. unfold lattice. apply smoothNoise_integer. Qed.

(** *** The colour *)

(** Below the lower edge [smoothstep] is 0. *)
Lemma smoothstep_below (e0 e1 x : R) :
  e0 < e1 -> x <= e0 -> smoothstep e0 e1 x = 0.
Proof.
  intros He Hx. unfold smoothstep, clamp. cbv zeta.
  assert (Hq : (x - e0) / (e1 - e0) <= 0).
  { unfold Rdiv. assert (0 < / (e1 - e0)) by (apply Rinv_0_lt_compat; lra).
    nra. }
  rewrite (Rmax_right _ 0 Hq), Rmin_left by lra. ring.
Qed.

Lemma mix_zero (x y : R) : mix x y 0 = x.
Proof. unfold mix. ring. Qed.

Lemma mix3_zero (x y : vec3) : mix3 x y 0 = x.
Proof. destruct x. unfold mix3. cbn [cr cg cb]. rewrite !mix_zero. reflexivity. Qed.

Lemma fbm_origin : fbm (Vec2 0 0) = 0.
Proof.
  assert (Z : forall f, smoothNoise (vscale (Vec2 0 0) f) = 0).
  { intros f.
    replace (vscale (Vec2 0 0) f) with (Vec2 (IZR 0) (IZR 0))
      by (apply vec2_eq; simpl; lra).
    rewrite smoothNoise_integer. unfold noise, dot. cbn [vx vy].
    replace (0 * 12.9898 + 0 * 78.233) with 0 by lra.
    rewrite sin_0, Rmult_0_l. apply (fract_integer 0). }
  unfold fbm, fbm_loop. rewrite !Z. lra.
Qed.

(** At time 0, in a viewport that is not empty, the fragment at the origin
    has pattern 0. *)
Lemma pattern_origin (resolution : vec2) (z w : R) :
  vx resolution <> 0 -> vy resolution <> 0 ->
  pattern {| u_time := 0; u_resolution := resolution |} (Vec4 0 0 z w) = 0.
Proof.
  intros _ _. unfold pattern, blend, ditherValue, wave1, wave2, main_p, main_uv, xy.
  cbn [u_time u_resolution x4 y4].
  assert (O : vdiv (Vec2 0 0) resolution = Vec2 0 0).
  { apply vec2_eq; cbn [vx vy vdiv]; unfold Rdiv; apply Rmult_0_l. }
  rewrite O.
  replace (vadd (vscale (Vec2 0 0) 3.0) (Vec2 (0 * 0.05) (0 * 0.03)))
    with (Vec2 0 0) by (apply vec2_eq; simpl; lra).
  replace (vsub (vscale (vscale (Vec2 0 0) 3.0) 1.5)
                (Vec2 (0 * 0.04) (0 * 0.02)))
    with (Vec2 0 0) by (apply vec2_eq; simpl; lra).
  rewrite fbm_origin. unfold dither, dot. cbn [vx vy].
  replace ((0 * 0.129898 + 0 * 0.78233) * 43758.5453) with (IZR 0) by lra.
  rewrite fract_integer. lra.
Qed.

(** The highlights are gated: while the pattern is at most 0.7 the accent
    colour takes no part, and while it is at most 0.4 the colour is the
    plain blend of the two blues, times the vignette. *)
Theorem highlights_gated (u : Uniforms) (c : vec4) :
  pattern u c <= 0.7 ->
  rgb (main u c)
  = scale3 (mix3 (mix3 deepBlue midBlue (pattern u c)) steelGray
                 (smoothstep 0.4 0.8 (pattern u c)))
           (vignette u c)
  /\ (pattern u c <= 0.4 ->
      rgb (main u c)
      = scale3 (mix3 deepBlue midBlue (pattern u c)) (vignette u c)).
Proof.
  intros H7.
  assert (E : rgb (main u c)
              = scale3 (mix3 (mix3 deepBlue midBlue (pattern u c)) steelGray
                             (smoothstep 0.4 0.8 (pattern u c)))
                       (vignette u c)).
  { unfold main, vignette. cbv zeta.
    rewrite (smoothstep_below 0.7 1.0 (pattern u c)) by lra.
    rewrite Rmult_0_l, mix3_zero. reflexivity. }
  split; [exact E |].
  intros H4. rewrite E.
  rewrite (smoothstep_below 0.4 0.8 (pattern u c)) by lra.
  rewrite mix3_zero. reflexivity.
Qed.

Lemma highlights_gated_witness :
  let u := {| u_time := 0; u_resolution := Vec2 800 600 |} in
  let c := Vec4 0 0 0.5 1 in
  pattern u c <= 0.7
  /\ rgb (main u c)
     = scale3 (mix3 (mix3 deepBlue midBlue (pattern u c)) steelGray
                    (smoothstep 0.4 0.8 (pattern u c)))
              (vignette u c).
Proof.
  cbv zeta.
  assert (H : pattern {| u_time := 0; u_resolution := Vec2 800 600 |}
                      (Vec4 0 0 0.5 1) <= 0.7).
  { rewrite pattern_origin; cbn; lra. }
  split; [exact H |].
  exact (proj1 (highlights_gated _ _ H)).
Defined.

(* ===================================================================== *)
(** ** Further properties of the script                                  *)
(* ===================================================================== *)

(** *** What the callbacks touch *)

(** A callback leaves the document and the resize listeners alone and adds
    only viewport, uniform and draw calls. *)
Lemma run_callback_frame (f : Callback) (s : State) :
  fallback_classList (exec (run_callback f) s) = fallback_classList s
  /\ canvas_display (exec (run_callback f) s) = canvas_display s
  /\ console (exec (run_callback f) s) = console s
  /\ resize_listeners (exec (run_callback f) s) = resize_listeners s
  /\ exists added,
       calls (exec (run_callback f) s) = (calls s ++ added)%list
       /\ forallb is_upload_or_draw added = true.
Proof.
  destruct f as [loc | loc start];
    unfold run_callback, resize, render, gl_viewport, gl_uniform2f,
      gl_uniform1f, requestAnimationFrame, call, exec, bind, get, modify;
    cbn; repeat split.
  - eexists. rewrite <- app_assoc. split; reflexivity.
  - eexists. rewrite <- app_assoc. split; reflexivity.
Qed.

Lemma callbacks_frame (l : list Callback) : forall s,
  fallback_classList (exec (for_each run_callback l) s) = fallback_classList s
  /\ canvas_display (exec (for_each run_callback l) s) = canvas_display s
  /\ console (exec (for_each run_callback l) s) = console s
  /\ resize_listeners (exec (for_each run_callback l) s) = resize_listeners s
  /\ exists added,
       calls (exec (for_each run_callback l) s) = (calls s ++ added)%list
       /\ forallb is_upload_or_draw added = true.
Proof.
  induction l as [| f l IH]; intros s.
  - cbn. repeat split. exists []. rewrite app_nil_r. split; reflexivity.
  - rewrite exec_for_each_cons.
    destruct (run_callback_frame f s) as (A1 & A2 & A3 & A4 & l1 & A5 & A6).
    destruct (IH (exec (run_callback f) s))
      as (B1 & B2 & B3 & B4 & l2 & B5 & B6).
    rewrite B1, B2, B3, B4, A1, A2, A3, A4. repeat split.
    exists (l1 ++ l2)%list. rewrite B5, A5, app_assoc, forallb_app, A6, B6.
    split; reflexivity.
Qed.

Lemma dispatch_frame (e : HostEvent) (s : State) :
  fallback_classList (exec (dispatch e) s) = fallback_classList s
  /\ canvas_display (exec (dispatch e) s) = canvas_display s
  /\ console (exec (dispatch e) s) = console s
  /\ resize_listeners (exec (dispatch e) s) = resize_listeners s
  /\ exists added,
       calls (exec (dispatch e) s) = (calls s ++ added)%list
       /\ forallb is_upload_or_draw added = true.
Proof.
  destruct e as [w h | now]; unfold dispatch; rewrite !exec_bind;
    unfold get, modify; cbn [fst snd].
  - apply (callbacks_frame _ (set_window w h s)).
  - apply (callbacks_frame _ (set_frame_callbacks [] (set_clock now s))).
Qed.

Lemma events_frame (events : list HostEvent) : forall s,
  fallback_classList (exec (for_each dispatch events) s) = fallback_classList s
  /\ canvas_display (exec (for_each dispatch events) s) = canvas_display s
  /\ console (exec (for_each dispatch events) s) = console s
  /\ resize_listeners (exec (for_each dispatch events) s) = resize_listeners s
  /\ exists added,
       calls (exec (for_each dispatch events) s) = (calls s ++ added)%list
       /\ forallb is_upload_or_draw added = true.
Proof.
  induction events as [| e events IH]; intros s.
  - cbn. repeat split. exists []. rewrite app_nil_r. split; reflexivity.
  - rewrite exec_for_each_cons.
    destruct (dispatch_frame e s) as (A1 & A2 & A3 & A4 & l1 & A5 & A6).
    destruct (IH (exec (dispatch e) s)) as (B1 & B2 & B3 & B4 & l2 & B5 & B6).
    rewrite B1, B2, B3, B4, A1, A2, A3, A4. repeat split.
    exists (l1 ++ l2)%list. rewrite B5, A5, app_assoc, forallb_app, A6, B6.
    split; reflexivity.
Qed.

(** Uploads and draws are none of the set-up calls. *)
Lemma uploads_are_no_setup (kind : Call -> bool) (added : list Call) :
  (forall c, is_upload_or_draw c = true -> kind c = false) ->
  forallb is_upload_or_draw added = true ->
  existsb kind added = false.
Proof.
  intros Hk. induction added as [| c added IH]; intros H.
  - reflexivity.
  - cbn in H. apply andb_prop in H. destruct H as [Hc Hl].
    cbn. rewrite (Hk c Hc), (IH Hl). reflexivity.
Qed.

(** *** A page that runs *)

(** The calls one event adds on a running page. *)
Lemma dispatch_running_calls (e : HostEvent) (s : State) (start : Z) :
  resize_listeners s = [cb_resize (uniform_location "u_resolution")] ->
  frame_callbacks s = [cb_render (uniform_location "u_time") start] ->
  calls (exec (dispatch e) s) = (calls s ++ event_calls start e)%list.
Proof.
  intros Hr Hf.
  destruct e as [w h | t]; unfold dispatch, exec, bind, modify, get; cbn.
  - rewrite Hr. cbn. rewrite <- app_assoc. reflexivity.
  - rewrite Hf. cbn. rewrite <- app_assoc. reflexivity.
Qed.

Lemma events_running_calls (events : list HostEvent) (start : Z) : forall s,
  resize_listeners s = [cb_resize (uniform_location "u_resolution")] ->
  frame_callbacks s = [cb_render (uniform_location "u_time") start] ->
  calls (exec (for_each dispatch events) s)
  = (calls s ++ flat_map (event_calls start) events)%list.
Proof.
  induction events as [| e events IH]; intros s Hr Hf.
  - cbn. rewrite app_nil_r. reflexivity.
  - rewrite exec_for_each_cons.
    destruct (dispatch_running e s start Hr Hf) as [Hr' Hf'].
    rewrite (IH _ Hr' Hf'), (dispatch_running_calls e s start Hr Hf).
    cbn [flat_map]. rewrite app_assoc. reflexivity.
Qed.

Lemma draws_of_events (start : Z) (events : list HostEvent) :
  List.length (filter is_draw (flat_map (event_calls start) events))
  = frames events.
Proof.
  unfold frames. induction events as [| e events IH].
  - reflexivity.
  - destruct e as [w h | t]; cbn; rewrite IH; reflexivity.
Qed.

(** On a page whose set-up succeeded, every later event adds exactly its
    two calls: a resize the viewport and the resolution upload at the new
    size, a frame the upload of the seconds elapsed and one draw of the
    four-vertex strip.  So the draws number one more than the frames. *)
Theorem running_trace (host : Host) (classes : list string)
    (display : string) (w h now : Z) (events : list HostEvent) :
  setup_succeeds host = true ->
  let s := exec (page host events) (fresh classes display w h now) in
  calls s
  = (calls (exec (iife host) (fresh classes display w h now))
     ++ flat_map (event_calls now) events)%list
  /\ draws s = S (frames events)
  /\ forallb is_strip (calls s) = true.
Proof.
  intros Hok. cbv zeta. unfold draws. rewrite exec_page.
  destruct (running_after_setup host classes display w h now Hok) as [Hr Hf].
  rewrite (events_running_calls events now _ Hr Hf).
  assert (D : List.length (filter is_draw
                (calls (exec (iife host) (fresh classes display w h now))))
              = 1%nat
              /\ forallb is_strip
                   (calls (exec (iife host) (fresh classes display w h now)))
                 = true).
  { revert Hok. unfold setup_succeeds. rewrite iife_answers.
    destruct (getContext host "webgl"), (getContext host "experimental-webgl"),
      (COMPILE_STATUS host VERTEX_SHADER), (COMPILE_STATUS host FRAGMENT_SHADER),
      (LINK_STATUS host); cbn [orb andb]; intros Hf'; try discriminate Hf';
      split; reflexivity. }
  destruct D as [D1 D2].
  split; [reflexivity |]. split.
  - rewrite filter_app, length_app, D1, draws_of_events. reflexivity.
  - rewrite forallb_app, D2. cbn [andb].
    clear. induction events as [| e events IH]; [reflexivity |].
    destruct e as [w h | t]; cbn; exact IH.
Qed.

Lemma running_trace_witness :
  let host := answers true false true true true in
  let events := [AnimationFrame 16; WindowResize 800 600; AnimationFrame 33] in
  let s := exec (page host events) (fresh [] "block" 1024 768 0) in
  setup_succeeds host = true
  /\ calls s
     = (calls (exec (iife host) (fresh [] "block" 1024 768 0))
        ++ flat_map (event_calls 0) events)%list
  /\ draws s = S (frames events)
  /\ forallb is_strip (calls s) = true.
Proof.
  cbv zeta. split; [reflexivity |].
  apply running_trace. reflexivity.
Defined.

Lemma resize_event_matches_window_witness :
  let host := answers false true true true true in
  let s := exec (page host [AnimationFrame 16; WindowResize 640 480;
                            AnimationFrame 33; WindowResize 800 600])
                (fresh [] "block" 1024 768 0) in
  (getContext host "webgl" || getContext host "experimental-webgl")
  && COMPILE_STATUS host VERTEX_SHADER && COMPILE_STATUS host FRAGMENT_SHADER
  && LINK_STATUS host = true
  /\ (1 <= 800)%Z /\ (1 <= 600)%Z
  /\ canvas_width s = 800%Z /\ canvas_height s = 600%Z
  /\ viewport s = (0, 0, 800, 600)%Z
  /\ u_resolution (uniforms s) = Vec2 800 600.
Proof.
  cbv zeta. split; [reflexivity | split; [lia | split; [lia |]]].
  apply (resize_event_matches_window (answers false true true true true)
           [] "block" 1024 768 0
           [AnimationFrame 16; WindowResize 640 480; AnimationFrame 33]
           800 600); [reflexivity | lia | lia].
Defined.

(** The fields one frame writes on a running page. *)
Lemma frame_effect (s : State) (start t : Z) :
  frame_callbacks s = [cb_render (uniform_location "u_time") start] ->
  let s' := exec (dispatch (AnimationFrame t)) s in
  u_time (uniforms s') = IZR (t - start) * 0.001
  /\ u_resolution (uniforms s') = u_resolution (uniforms s)
  /\ viewport s' = viewport s
  /\ canvas_width s' = canvas_width s /\ canvas_height s' = canvas_height s.
Proof.
  intros Hf. cbv zeta. unfold dispatch, exec, bind, modify, get. cbn.
  rewrite Hf. cbn. repeat split.
Qed.

(** The field one resize does not write on a running page. *)
Lemma resize_keeps_time (s : State) (w h : Z) :
  resize_listeners s = [cb_resize (uniform_location "u_resolution")] ->
  u_time (uniforms (exec (dispatch (WindowResize w h)) s)) = u_time (uniforms s).
Proof.
  intros Hr. unfold dispatch, exec, bind, modify, get. cbn.
  rewrite Hr. cbn. reflexivity.
Qed.

(** The two uniforms are written independently.  On a page whose set-up
    succeeded, a frame at clock reading [t], after any events, sets the time
    uniform to the seconds since the start and leaves the resolution
    uniform, the viewport and the canvas size as they were; a resize leaves
    the time uniform as it was. *)
Theorem frame_sets_time_only (host : Host) (classes : list string)
    (display : string) (w h now : Z) (events : list HostEvent) (t w' h' : Z) :
  setup_succeeds host = true ->
  let before := exec (page host events) (fresh classes display w h now) in
  let framed := exec (page host (events ++ [AnimationFrame t]))
                     (fresh classes display w h now) in
  let resized := exec (page host (events ++ [WindowResize w' h']))
                      (fresh classes display w h now) in
  u_time (uniforms framed) = IZR (t - now) * 0.001
  /\ u_resolution (uniforms framed) = u_resolution (uniforms before)
  /\ viewport framed = viewport before
  /\ canvas_width framed = canvas_width before
  /\ canvas_height framed = canvas_height before
  /\ u_time (uniforms resized) = u_time (uniforms before).
Proof.
  intros Hok. cbv zeta. rewrite !exec_page, !exec_for_each_app.
  destruct (running_after_setup host classes display w h now Hok) as [Hr Hf].
  destruct (events_running events now _ Hr Hf) as [Hr' Hf'].
  set (s1 := exec (for_each dispatch events) _) in *. clearbody s1.
  rewrite !exec_for_each_cons. cbn [for_each].
  change (exec (ret tt) ?x) with x.
  destruct (frame_effect s1 now t Hf') as (F1 & F2 & F3 & F4 & F5).
  rewrite F1, F2, F3, F4, F5, (resize_keeps_time s1 w' h' Hr').
  repeat split.
Qed.

Lemma frame_sets_time_only_witness :
  let host := answers true true true true true in
  let events := [WindowResize 800 600; AnimationFrame 1000] in
  let before := exec (page host events) (fresh [] "block" 1024 768 0) in
  let framed := exec (page host (events ++ [AnimationFrame 2500]))
                     (fresh [] "block" 1024 768 0) in
  setup_succeeds host = true
  /\ u_time (uniforms framed) = IZR (2500 - 0) * 0.001
  /\ u_resolution (uniforms framed) = u_resolution (uniforms before).
Proof.
  cbv zeta.
  destruct (frame_sets_time_only (answers true true true true true)
              [] "block" 1024 768 0
              [WindowResize 800 600; AnimationFrame 1000] 2500 1 1
              eq_refl) as (H1 & H2 & _).
  split; [reflexivity | split; [exact H1 | exact H2]].
Defined.

(** While the page runs the fallback stays out of sight: after a set-up
    that succeeded, whatever events follow, the fallback's classes and the
    canvas's display style are those of the markup and nothing was written
    to the console. *)
Theorem success_leaves_document (host : Host) (classes : list string)
    (display : string) (w h now : Z) (events : list HostEvent) :
  setup_succeeds host = true ->
  let s := exec (page host events) (fresh classes display w h now) in
  fallback_classList s = classes /\ canvas_display s = display
  /\ console s = [].
Proof.
  intros Hok. cbv zeta. rewrite exec_page.
  destruct (events_frame events (exec (iife host)
              (fresh classes display w h now))) as (E1 & E2 & E3 & _).
  rewrite E1, E2, E3. revert Hok. unfold setup_succeeds. rewrite iife_answers.
  destruct (getContext host "webgl"), (getContext host "experimental-webgl"),
    (COMPILE_STATUS host VERTEX_SHADER), (COMPILE_STATUS host FRAGMENT_SHADER),
    (LINK_STATUS host); cbn [orb andb]; intros Hf; try discriminate Hf;
    repeat split.
Qed.

Lemma success_leaves_document_witness :
  let host := answers true false true true true in
  let s := exec (page host [AnimationFrame 16; WindowResize 800 600])
                (fresh ["hero"%string] "block" 1024 768 0) in
  setup_succeeds host = true
  /\ fallback_classList s = ["hero"%string] /\ canvas_display s = "block"%string
  /\ console s = [].
Proof.
  cbv zeta. split; [reflexivity |].
  apply success_leaves_document. reflexivity.
Defined.

(** *** The failures *)

(** When the program fails to link (a context was obtained and both stages
    compiled), linking was attempted, the program is never put in use,
    nothing is ever drawn whatever events follow, and the fallback is
    shown. *)
Theorem link_failure_fallback (host : Host) (classes : list string)
    (display : string) (w h now : Z) (events : list HostEvent) :
  context_available host = true ->
  COMPILE_STATUS host VERTEX_SHADER = true ->
  COMPILE_STATUS host FRAGMENT_SHADER = true ->
  LINK_STATUS host = false ->
  let s := exec (page host events) (fresh classes display w h now) in
  fallback_shown s
  /\ existsb is_link (calls s) = true
  /\ never is_use s /\ never is_draw s
  /\ last (console s) ""%string = "Program linking error:"%string.
Proof.
  unfold context_available. intros Hc Hv Hf Hl. cbv zeta. rewrite exec_page.
  destruct (failed_setup host classes display w h now) as (F & Hh & D & _).
  { rewrite Hl. apply andb_false_r. }
  destruct (events_halted events _ Hh) as (_ & E1 & E2 & E3).
  destruct (events_frame events (exec (iife host)
              (fresh classes display w h now))) as (_ & _ & E4 & _).
  destruct F as [F1 F2].
  split; [split; [rewrite E2; exact F1 | rewrite E3; exact F2] |].
  rewrite E1, E4.
  assert (K : existsb is_link
                (calls (exec (iife host) (fresh classes display w h now)))
              = true
              /\ existsb is_use
                   (calls (exec (iife host) (fresh classes display w h now)))
                 = false
              /\ last (console (exec (iife host)
                         (fresh classes display w h now))) ""%string
                 = "Program linking error:"%string).
  { revert Hc. rewrite iife_answers, Hv, Hf, Hl.
    destruct (getContext host "webgl"), (getContext host "experimental-webgl");
      cbn [orb]; intros Hc; try discriminate Hc; repeat split. }
  destruct K as (K1 & K2 & K3).
  split; [exact K1 |]. split; [| split; [| exact K3]].
  - apply never_existsb. rewrite E1. exact K2.
  - exact (never_same_calls _ _ _ E1 D).
Qed.

Lemma link_failure_fallback_witness :
  let host := answers true false true true false in
  let s := exec (page host [AnimationFrame 16; WindowResize 800 600])
                (fresh [] "block" 1024 768 0) in
  context_available host = true
  /\ COMPILE_STATUS host VERTEX_SHADER = true
  /\ COMPILE_STATUS host FRAGMENT_SHADER = true
  /\ LINK_STATUS host = false
  /\ fallback_shown s
  /\ existsb is_link (calls s) = true
  /\ never is_use s /\ never is_draw s
  /\ last (console s) ""%string = "Program linking error:"%string.
Proof.
  cbv zeta. repeat (split; [reflexivity |]).
  apply link_failure_fallback; reflexivity.
Defined.

(** With a context, both stages are always compiled, also when the vertex
    stage has failed, and a stage's shader is deleted exactly when its own
    compilation failed: a stage that compiled is not deleted when the
    other one fails.  No later event changes this. *)
Theorem compile_bookkeeping (host : Host) (classes : list string)
    (display : string) (w h now : Z) (events : list HostEvent)
    (type : ShaderType) :
  context_available host = true ->
  let s := exec (page host events) (fresh classes display w h now) in
  existsb (is_compile_of type) (calls s) = true
  /\ existsb (is_delete type) (calls s) = negb (COMPILE_STATUS host type).
Proof.
  unfold context_available. intros Hc. cbv zeta. rewrite exec_page.
  destruct (events_frame events (exec (iife host)
              (fresh classes display w h now))) as (_ & _ & _ & _ & l & E & U).
  rewrite E, !existsb_app.
  rewrite (uploads_are_no_setup (is_compile_of type) l), orb_false_r;
    [| intros c; destruct c, type; cbn; congruence | exact U].
  rewrite (uploads_are_no_setup (is_delete type) l), orb_false_r;
    [| intros c; destruct c, type; cbn; congruence | exact U].
  revert Hc. rewrite iife_answers.
  destruct type;
    destruct (getContext host "webgl"), (getContext host "experimental-webgl"),
    (COMPILE_STATUS host VERTEX_SHADER), (COMPILE_STATUS host FRAGMENT_SHADER),
    (LINK_STATUS host); cbn [orb]; intros Hc; try discriminate Hc;
    split; reflexivity.
Qed.

Lemma compile_bookkeeping_witness :
  let host := answers true false true false true in
  let s := exec (page host [AnimationFrame 16])
                (fresh [] "block" 1024 768 0) in
  context_available host = true
  /\ existsb (is_compile_of VERTEX_SHADER) (calls s) = true
  /\ existsb (is_delete VERTEX_SHADER) (calls s)
     = negb (COMPILE_STATUS host VERTEX_SHADER).
Proof.
  cbv zeta. split; [reflexivity |].
  apply compile_bookkeeping. reflexivity.
Defined.

(** The first probe is always made; the second one exactly when the first
    gave no context. *)
Theorem probe_short_circuit (host : Host) (classes : list string)
    (display : string) (w h now : Z) (events : list HostEvent) :
  let s := exec (page host events) (fresh classes display w h now) in
  existsb (is_probe "webgl") (calls s) = true
  /\ existsb (is_probe "experimental-webgl") (calls s)
     = negb (getContext host "webgl").
Proof.
  cbv zeta. rewrite exec_page.
  destruct (events_frame events (exec (iife host)
              (fresh classes display w h now))) as (_ & _ & _ & _ & l & E & U).
  rewrite E, !existsb_app.
  rewrite (uploads_are_no_setup (is_probe "webgl") l), orb_false_r;
    [| intros c; destruct c; cbn; congruence | exact U].
  rewrite (uploads_are_no_setup (is_probe "experimental-webgl") l), orb_false_r;
    [| intros c; destruct c; cbn; congruence | exact U].
  rewrite iife_answers.
  destruct (getContext host "webgl"), (getContext host "experimental-webgl"),
    (COMPILE_STATUS host VERTEX_SHADER), (COMPILE_STATUS host FRAGMENT_SHADER),
    (LINK_STATUS host); split; reflexivity.
Qed.

(* ===================================================================== *)
(** ** Properties of the page animations                                 *)
(* ===================================================================== *)

Import Animations.

(** *** Sequences and loops *)

Lemma seq_cons (step : Anim -> Anim) (steps : list (Anim -> Anim)) (s : Anim) :
  seq (step :: steps) s = seq steps (step s).
Proof. reflexivity. Qed.

Lemma seq_app (l1 l2 : list (Anim -> Anim)) (s : Anim) :
  seq (l1 ++ l2) s = seq l2 (seq l1 s).
Proof. unfold seq. apply fold_left_app. Qed.

(** A loop whose body keeps a field keeps it. *)
Lemma forEach_from_keeps {A : Type} (proj : Anim -> A)
    (f : Node -> nat -> Anim -> Anim) :
  (forall e i s, proj (f e i s) = proj s) ->
  forall l i s, proj (forEach_from i l f s) = proj s.
Proof.
  intros Hf. induction l as [| e l IH]; intros i s.
  - reflexivity.
  - cbn [forEach_from]. rewrite IH. apply Hf.
Qed.

(** A loop whose body adds the listeners [h e] adds them element by
    element. *)
Lemma forEach_from_handlers (f : Node -> nat -> Anim -> Anim)
    (h : Node -> list (Node * EventType * Handler)) :
  (forall e i s, handlers (f e i s) = (handlers s ++ h e)%list) ->
  forall l i s,
    handlers (forEach_from i l f s) = (handlers s ++ flat_map h l)%list.
Proof.
  intros Hf. induction l as [| e l IH]; intros i s.
  - cbn. rewrite app_nil_r. reflexivity.
  - cbn [forEach_from flat_map]. rewrite IH, Hf, app_assoc. reflexivity.
Qed.

(** A loop whose body makes the one call [g e i] makes one call for each
    element, with the element's index. *)
Lemma forEach_from_calls (f : Node -> nat -> Anim -> Anim)
    (g : Node -> nat -> GsapCall) :
  (forall e i s, gsap_calls (f e i s) = (gsap_calls s ++ [g e i])%list) ->
  forall l i s,
    gsap_calls (forEach_from i l f s)
    = (gsap_calls s
       ++ map (fun ei => g (fst ei) (snd ei))
              (combine l (List.seq i (List.length l))))%list.
Proof.
  intros Hf. induction l as [| e l IH]; intros i s.
  - cbn. rewrite app_nil_r. reflexivity.
  - cbn [forEach_from List.length List.seq combine map fst snd].
    rewrite IH, Hf, <- app_assoc. reflexivity.
Qed.

(** *** What the listeners touch *)

Lemma run_handler_handlers (doc : Document) (f : Handler) (s : Anim) :
  handlers (run_handler doc f s) = handlers s.
Proof.
  destruct f; cbn; try reflexivity.
  destruct (querySelector doc (href doc anchor)); reflexivity.
Qed.

Lemma run_all_handlers (doc : Document)
    (l : list (Node * EventType * Handler)) : forall s,
  handlers (seq (map (fun entry => run_handler doc (snd entry)) l) s)
  = handlers s.
Proof.
  induction l as [| entry l IH]; intros s.
  - reflexivity.
  - cbn [map]. rewrite seq_cons, IH. apply run_handler_handlers.
Qed.

Lemma fire_handlers (doc : Document) (event : Node * EventType) (s : Anim) :
  handlers (fire doc event s) = handlers s.
Proof. destruct event as [element type]. apply run_all_handlers. Qed.

Lemma fires_handlers (doc : Document) (events : list (Node * EventType)) :
  forall s, handlers (seq (map (fire doc) events) s) = handlers s.
Proof.
  induction events as [| e events IH]; intros s.
  - reflexivity.
  - cbn [map]. rewrite seq_cons, IH. apply fire_handlers.
Qed.

Lemma session_snoc (doc : Document) (events : list (Node * EventType))
    (event : Node * EventType) :
  session doc (events ++ [event]) = fire doc event (session doc events).
Proof. unfold session. rewrite map_app, seq_app. reflexivity. Qed.

Lemma session_handlers (doc : Document) (events : list (Node * EventType)) :
  handlers (session doc events) = handlers (ready doc start).
Proof. unfold session. apply fires_handlers. Qed.

(** The listeners in place once the document is ready: two for each
    button, two for each feature card, one for each anchor. *)
Lemma ready_handlers (doc : Document) :
  gsap_defined doc = true ->
  handlers (ready doc start)
  = (flat_map (fun btn => [(btn, mouseenter, btn_enter btn);
                           (btn, mouseleave, btn_leave btn)]) (btns doc)
     ++ flat_map (fun card =>
          [(card, mouseenter, card_enter card (feature_number doc card));
           (card, mouseleave, card_leave card (feature_number doc card))])
          (feature_cards doc)
     ++ flat_map (fun anchor => [(anchor, click, anchor_click anchor)])
          (hash_anchors doc))%list.
Proof.
  intros Hg. unfold ready. rewrite Hg. cbn [negb seq fold_left]. unfold forEach.
  rewrite (forEach_from_handlers _
             (fun anchor => [(anchor, click, anchor_click anchor)]))
    by reflexivity.
  rewrite (forEach_from_handlers _
             (fun card =>
                [(card, mouseenter, card_enter card (feature_number doc card));
                 (card, mouseleave, card_leave card (feature_number doc card))]))
    by (intros; cbn; rewrite <- app_assoc; reflexivity).
  rewrite (forEach_from_handlers _
             (fun btn => [(btn, mouseenter, btn_enter btn);
                          (btn, mouseleave, btn_leave btn)]))
    by (intros; cbn; rewrite <- app_assoc; reflexivity).
  rewrite (forEach_from_keeps handlers) by reflexivity. cbn [handlers gsap_from].
  rewrite (forEach_from_keeps handlers) by reflexivity. cbn.
  rewrite app_assoc. reflexivity.
Qed.

Lemma ready_without_gsap (doc : Document) :
  gsap_defined doc = false ->
  ready doc start = warn "GSAP not loaded, skipping animations" start.
Proof. intros Hg. unfold ready. rewrite Hg. reflexivity. Qed.

Lemma filter_none {A : Type} (p : A -> bool) (l : list A) :
  (forall x, In x l -> p x = false) -> filter p l = [].
Proof.
  induction l as [| a l IH]; intros H.
  - reflexivity.
  - cbn. rewrite (H a (or_introl eq_refl)). apply IH.
    intros x Hx. apply H. right. exact Hx.
Qed.

Lemma fire_unheard (doc : Document) (element : Node) (type : EventType)
    (s : Anim) :
  (forall entry, In entry (handlers s) -> listens element type entry = false) ->
  fire doc (element, type) s = s.
Proof. intros H. unfold fire. rewrite (filter_none _ _ H). reflexivity. Qed.

(** *** When the animation library is missing *)

(** Without [gsap] the listener of [DOMContentLoaded] warns once and
    returns: no animation call is made, no listener added, and no later
    hover or click changes anything. *)
Theorem gsap_missing_skips_all (doc : Document)
    (events : list (Node * EventType)) :
  gsap_defined doc = false ->
  session doc events
  = {| gsap_calls := []; handlers := [];
       warnings := ["GSAP not loaded, skipping animations"%string];
       prevented := [] |}.
Proof.
  intros Hg. induction events as [| e events IH] using rev_ind.
  - unfold session. rewrite (ready_without_gsap doc Hg). reflexivity.
  - rewrite session_snoc, IH. destruct e as [element type].
    apply fire_unheard. intros entry [].
Qed.

Lemma gsap_missing_skips_all_witness :
  let doc := {| gsap_defined := false; feature_cards := [1; 2]%nat;
                stat_items := [3]%nat; btns := [4; 5]%nat;
                hash_anchors := [6]%nat;
                feature_number := fun _ => None;
                href := fun _ => "#top"%string;
                querySelector := fun _ => Some 7%nat |} in
  gsap_defined doc = false
  /\ session doc [(4%nat, mouseenter); (6%nat, click)]
     = {| gsap_calls := []; handlers := [];
          warnings := ["GSAP not loaded, skipping animations"%string];
          prevented := [] |}.
Proof.
  cbv zeta. split; [reflexivity |].
  apply gsap_missing_skips_all. reflexivity.
Defined.

(** *** When the document is ready *)

Lemma length_flat_map_const {A B : Type} (h : A -> list B) (k : nat)
    (l : list A) :
  (forall x, List.length (h x) = k) ->
  List.length (flat_map h l) = (k * List.length l)%nat.
Proof.
  intros H. induction l as [| a l IH].
  - cbn. lia.
  - cbn [flat_map]. rewrite length_app, H, IH. cbn [List.length]. lia.
Qed.

Lemma forallb_map_true {A B : Type} (p : B -> bool) (f : A -> B) (l : list A) :
  (forall x, p (f x) = true) -> forallb p (map f l) = true.
Proof.
  intros H. induction l as [| a l IH]; [reflexivity |].
  cbn. rewrite H, IH. reflexivity.
Qed.

(** With [gsap], the ready document has been given only entrance
    animations ([gsap.from]): the eight fixed ones and one for each feature
    card and each stat item; and two listeners for each button, two for
    each feature card and one for each anchor.  Nothing is warned about. *)
Theorem ready_counts (doc : Document) :
  gsap_defined doc = true ->
  let s := ready doc start in
  List.length (gsap_calls s)
  = (8 + List.length (feature_cards doc) + List.length (stat_items doc))%nat
  /\ forallb is_from (gsap_calls s) = true
  /\ List.length (handlers s)
     = (2 * List.length (btns doc) + 2 * List.length (feature_cards doc)
        + List.length (hash_anchors doc))%nat
  /\ warnings s = [] /\ prevented s = [].
Proof.
  intros Hg. cbv zeta.
  split; [| split; [| split; [| split]]].
  - unfold ready. rewrite Hg. cbn [negb seq fold_left]. unfold forEach.
    rewrite !(forEach_from_keeps gsap_calls) by reflexivity.
    erewrite forEach_from_calls by (intros; reflexivity).
    cbn [gsap_calls gsap_from].
    erewrite forEach_from_calls by (intros; reflexivity).
    cbn [gsap_calls gsap_from start].
    rewrite !length_app, !length_map, !length_combine, !length_seq, !Nat.min_id.
    cbn [List.length]. lia.
  - unfold ready. rewrite Hg. cbn [negb seq fold_left]. unfold forEach.
    rewrite !(forEach_from_keeps gsap_calls) by reflexivity.
    erewrite forEach_from_calls by (intros; reflexivity).
    cbn [gsap_calls gsap_from].
    erewrite forEach_from_calls by (intros; reflexivity).
    cbn [gsap_calls gsap_from start].
    rewrite !forallb_app, !forallb_map_true by reflexivity. reflexivity.
  - rewrite (ready_handlers doc Hg), !length_app.
    rewrite (length_flat_map_const _ 2), (length_flat_map_const _ 2),
      (length_flat_map_const _ 1) by reflexivity.
    lia.
  - unfold ready. rewrite Hg. cbn [negb seq fold_left]. unfold forEach.
    repeat (rewrite (forEach_from_keeps warnings) by reflexivity;
            cbn [warnings gsap_from]).
    reflexivity.
  - unfold ready. rewrite Hg. cbn [negb seq fold_left]. unfold forEach.
    repeat (rewrite (forEach_from_keeps prevented) by reflexivity;
            cbn [prevented gsap_from]).
    reflexivity.
Qed.

Lemma ready_counts_witness :
  let doc := {| gsap_defined := true; feature_cards := [1; 2; 3]%nat;
                stat_items := [4; 5]%nat; btns := [6; 7]%nat;
                hash_anchors := [8]%nat;
                feature_number := fun _ => None;
                href := fun _ => "#top"%string;
                querySelector := fun _ => Some 9%nat |} in
  gsap_defined doc = true
  /\ List.length (gsap_calls (ready doc start)) = 13%nat
  /\ forallb is_from (gsap_calls (ready doc start)) = true
  /\ List.length (handlers (ready doc start)) = 11%nat.
Proof.
  cbv zeta.
  destruct (ready_counts {| gsap_defined := true; feature_cards := [1; 2; 3]%nat;
                stat_items := [4; 5]%nat; btns := [6; 7]%nat;
                hash_anchors := [8]%nat;
                feature_number := fun _ => None;
                href := fun _ => "#top"%string;
                querySelector := fun _ => Some 9%nat |} eq_refl)
    as (H1 & H2 & H3 & _).
  split; [reflexivity | split; [exact H1 | split; [exact H2 | exact H3]]].
Defined.

(** *** Which listeners hear an event *)

Lemma listens_spec (element e : Node) (type t : EventType) (f : Handler) :
  listens element type (e, t, f) = true <-> e = element /\ t = type.
Proof.
  unfold listens. split.
  - intros H. apply andb_prop in H. destruct H as [He Ht].
    apply Nat.eqb_eq in He. split; [exact He |].
    destruct t, type; try discriminate Ht; reflexivity.
  - intros [-> ->]. rewrite Nat.eqb_refl. destruct type; reflexivity.
Qed.

Lemma listens_other (element e : Node) (type t : EventType) (f : Handler) :
  e <> element \/ t <> type -> listens element type (e, t, f) = false.
Proof.
  intros H. destruct (listens element type (e, t, f)) eqn:E; [| reflexivity].
  apply listens_spec in E. destruct E as [-> ->]. destruct H as [H | H];
    contradiction H; reflexivity.
Qed.

(** Among the listeners of a loop over distinct elements, those of one
    element that hear the event. *)
Lemma filter_own (element : Node) (type : EventType)
    (h : Node -> list (Node * EventType * Handler)) (l : list Node) :
  (forall e entry, In entry (h e) -> fst (fst entry) = e) ->
  NoDup l -> In element l ->
  filter (listens element type) (flat_map h l)
  = filter (listens element type) (h element).
Proof.
  intros Hh Hnd Hin. induction l as [| e l IH]; [destruct Hin |].
  cbn [flat_map]. rewrite filter_app. inversion Hnd as [| ? ? Hnot Hnd']; subst.
  assert (others : forall l', ~ In element l' ->
            filter (listens element type) (flat_map h l') = []).
  { intros l' Hl'. apply filter_none. intros [[e' t'] f'] Hx.
    apply in_flat_map in Hx. destruct Hx as (e0 & He0 & Hx).
    apply listens_other. left. specialize (Hh e0 _ Hx). cbn in Hh. subst e'.
    intros ->. exact (Hl' He0). }
  destruct Hin as [-> | Hin].
  - rewrite (others l Hnot), app_nil_r. reflexivity.
  - rewrite (IH Hnd' Hin).
    assert (E : filter (listens element type) (h e) = []).
    { apply filter_none. intros [[e' t'] f'] Hx.
      apply listens_other. left. specialize (Hh e _ Hx). cbn in Hh. subst e'.
      intros ->. exact (Hnot Hin). }
    rewrite E. reflexivity.
Qed.

(** A click is heard by the anchors' listeners only; a hover by the
    buttons' and the cards' only. *)
Lemma heard_by (doc : Document) (element : Node) (type : EventType) :
  gsap_defined doc = true ->
  filter (listens element type) (handlers (ready doc start))
  = (filter (listens element type)
       (flat_map (fun btn => [(btn, mouseenter, btn_enter btn);
                              (btn, mouseleave, btn_leave btn)]) (btns doc))
     ++ filter (listens element type)
          (flat_map (fun card =>
             [(card, mouseenter, card_enter card (feature_number doc card));
              (card, mouseleave, card_leave card (feature_number doc card))])
             (feature_cards doc))
     ++ filter (listens element type)
          (flat_map (fun anchor => [(anchor, click, anchor_click anchor)])
             (hash_anchors doc)))%list.
Proof.
  intros Hg. rewrite (ready_handlers doc Hg), !filter_app. reflexivity.
Qed.

Lemma unheard_in (element : Node) (type : EventType)
    (h : Node -> list (Node * EventType * Handler)) (l : list Node) :
  (forall e entry, In e l -> In entry (h e) ->
     fst (fst entry) <> element \/ snd (fst entry) <> type) ->
  filter (listens element type) (flat_map h l) = [].
Proof.
  intros H. apply filter_none. intros [[e' t'] f'] Hx.
  apply in_flat_map in Hx. destruct Hx as (e0 & He0 & Hx).
  apply listens_other. exact (H e0 _ He0 Hx).
Qed.

(** At an element without a listener of the event's type nothing runs. *)
Lemma fire_without_listener (doc : Document)
    (events : list (Node * EventType)) (element : Node) (type : EventType) :
  ~ has_listener doc element type ->
  fire doc (element, type) (session doc events) = session doc events.
Proof.
  intros Hn. unfold fire.
  rewrite session_handlers.
  destruct (gsap_defined doc) eqn:Hg.
  2:{ rewrite (ready_without_gsap doc Hg). reflexivity. }
  rewrite (heard_by doc element type Hg).
  rewrite !unheard_in; [reflexivity | | |].
  - intros e entry He [<- | []]. cbn.
    destruct type; cbn in Hn;
      [right; discriminate | right; discriminate |].
    left. intros ->. exact (Hn He).
  - intros e entry He [<- | [<- | []]]; cbn;
      (destruct type; cbn in Hn;
       [first [left; intros ->; apply Hn; right; exact He | right; discriminate]
       | first [left; intros ->; apply Hn; right; exact He | right; discriminate]
       | right; discriminate]).
  - intros e entry He [<- | [<- | []]]; cbn;
      (destruct type; cbn in Hn;
       [first [left; intros ->; apply Hn; left; exact He | right; discriminate]
       | first [left; intros ->; apply Hn; left; exact He | right; discriminate]
       | right; discriminate]).
Qed.

(** An event that meets no listener on its way changes nothing: a click
    whose target and ancestors include no anchor that points into the
    page, a hover whose target is neither a button nor a feature card.  (A
    click inside such an anchor bubbles up to it and is heard.) *)
Theorem unheard_event_ignored (doc : Document)
    (events : list (Node * EventType)) (path : list Node)
    (type : EventType) :
  ~ heard_on doc path type ->
  propagate doc path type (session doc events) = session doc events.
Proof.
  intros Hn. destruct type.
  - destruct path as [| target path]; [reflexivity |].
    apply fire_without_listener. exact Hn.
  - destruct path as [| target path]; [reflexivity |].
    apply fire_without_listener. exact Hn.
  - unfold propagate. induction path as [| element path IH]; [reflexivity |].
    cbn [map]. rewrite seq_cons, fire_without_listener.
    + apply IH. intros (e & He & Hl). apply Hn. exists e.
      split; [right; exact He | exact Hl].
    + intros Hl. apply Hn. exists element. split; [left; reflexivity | exact Hl].
Qed.

Lemma unheard_event_ignored_witness :
  let doc := {| gsap_defined := true; feature_cards := [1; 2]%nat;
                stat_items := [3]%nat; btns := [4; 5]%nat;
                hash_anchors := [6]%nat;
                feature_number := fun _ => None;
                href := fun _ => "#top"%string;
                querySelector := fun _ => Some 7%nat |} in
  ~ heard_on doc [9; 4; 0]%nat click
  /\ propagate doc [9; 4; 0]%nat click (session doc [(6%nat, click)])
     = session doc [(6%nat, click)].
Proof.
  cbv zeta.
  assert (H : ~ heard_on
                {| gsap_defined := true; feature_cards := [1; 2]%nat;
                   stat_items := [3]%nat; btns := [4; 5]%nat;
                   hash_anchors := [6]%nat;
                   feature_number := fun _ => None;
                   href := fun _ => "#top"%string;
                   querySelector := fun _ => Some 7%nat |}
                [9; 4; 0]%nat click).
  { intros (e & He & Hl). cbn in He, Hl.
    destruct Hl as [<- | []].
    destruct He as [H | [H | [H | []]]]; discriminate H. }
  split; [exact H |].
  exact (unheard_event_ignored _ [(6%nat, click)] [9; 4; 0]%nat click H).
Defined.

(** A click on an element inside an anchor bubbles to the anchor: its
    default action is prevented and the scroll is asked for. *)
Example click_inside_anchor_bubbles :
  let doc := {| gsap_defined := true; feature_cards := [1; 2]%nat;
                stat_items := [3]%nat; btns := [4; 5]%nat;
                hash_anchors := [6]%nat;
                feature_number := fun _ => None;
                href := fun _ => "#top"%string;
                querySelector := fun _ => Some 7%nat |} in
  let s := propagate doc [9; 6; 0]%nat click (session doc []) in
  prevented s = [6%nat]
  /\ last (gsap_calls s) (scroll_to 0%nat) = scroll_to 7%nat.
Proof. cbv zeta. split; reflexivity. Qed.

(** A click on an anchor that points into the page always has its default
    action prevented, and asks for a scroll exactly when the document has
    an element for the anchor's [href]: then one scroll to that element,
    80 pixels short of it; otherwise no animation call at all. *)
Theorem anchor_click_scrolls (doc : Document)
    (events : list (Node * EventType)) (anchor : Node) :
  gsap_defined doc = true ->
  NoDup (hash_anchors doc) -> In anchor (hash_anchors doc) ->
  let before := session doc events in
  let after := session doc (events ++ [(anchor, click)]) in
  prevented after = (prevented before ++ [anchor])%list
  /\ gsap_calls after
     = (gsap_calls before
        ++ match querySelector doc (href doc anchor) with
           | Some target => [scroll_to target]
           | None => []
           end)%list
  /\ handlers after = handlers before /\ warnings after = warnings before.
Proof.
  intros Hg Hnd Hin. cbv zeta. rewrite session_snoc.
  set (s := session doc events).
  assert (F : fire doc (anchor, click) s = run_handler doc (anchor_click anchor) s).
  { unfold fire, s. rewrite session_handlers, (heard_by doc anchor click Hg).
    rewrite (unheard_in anchor click _ (btns doc));
      [| intros e entry He [<- | [<- | []]]; right; discriminate].
    rewrite (unheard_in anchor click _ (feature_cards doc));
      [| intros e entry He [<- | [<- | []]]; right; discriminate].
    rewrite (filter_own anchor click _ (hash_anchors doc));
      [| intros e entry [<- | []]; reflexivity | exact Hnd | exact Hin].
    cbn. rewrite Nat.eqb_refl. reflexivity. }
  rewrite F. cbn.
  destruct (querySelector doc (href doc anchor)); cbn; repeat split.
  rewrite app_nil_r. reflexivity.
Qed.

Lemma anchor_click_scrolls_witness :
  let doc := {| gsap_defined := true; feature_cards := [1; 2]%nat;
                stat_items := [3]%nat; btns := [4; 5]%nat;
                hash_anchors := [6; 8]%nat;
                feature_number := fun _ => None;
                href := fun _ => "#top"%string;
                querySelector := fun _ => Some 7%nat |} in
  gsap_defined doc = true /\ NoDup (hash_anchors doc)
  /\ In 8%nat (hash_anchors doc)
  /\ prevented (session doc ([(4%nat, mouseenter)] ++ [(8%nat, click)]))
     = (prevented (session doc [(4%nat, mouseenter)]) ++ [8%nat])%list.
Proof.
  cbv zeta.
  assert (Hnd : NoDup [6; 8]%nat).
  { constructor; [intros [H | []]; discriminate H |].
    constructor; [intros [] | constructor]. }
  assert (Hin : In 8%nat [6; 8]%nat) by (right; left; reflexivity).
  split; [reflexivity | split; [exact Hnd | split; [exact Hin |]]].
  exact (proj1 (anchor_click_scrolls
                  {| gsap_defined := true; feature_cards := [1; 2]%nat;
                     stat_items := [3]%nat; btns := [4; 5]%nat;
                     hash_anchors := [6; 8]%nat;
                     feature_number := fun _ => None;
                     href := fun _ => "#top"%string;
                     querySelector := fun _ => Some 7%nat |}
                  [(4%nat, mouseenter)] 8%nat eq_refl Hnd Hin)).
Defined.

(** A hover over a feature card that is not also a button asks for two
    animations, in this order: one of the card, and one of what
    [card.querySelector] gave for its number when the document became
    ready, also when that is [null]; leaving the card asks for two more,
    aimed at the same two. *)
Theorem card_hover_targets (doc : Document)
    (events : list (Node * EventType)) (card : Node) (type : EventType) :
  gsap_defined doc = true ->
  NoDup (feature_cards doc) -> In card (feature_cards doc) ->
  ~ In card (btns doc) ->
  type = mouseenter \/ type = mouseleave ->
  let before := session doc events in
  let after := session doc (events ++ [(card, type)]) in
  exists first second,
    gsap_calls after = (gsap_calls before ++ [first; second])%list
    /\ is_from first = false /\ is_from second = false
    /\ target_of first = Element (Some card)
    /\ target_of second = Element (feature_number doc card).
Proof.
  intros Hg Hnd Hin Hnb Ht. cbv zeta. rewrite session_snoc.
  set (s := session doc events).
  assert (F : fire doc (card, type) s
              = run_handler doc
                  (match type with
                   | mouseleave => card_leave card (feature_number doc card)
                   | _ => card_enter card (feature_number doc card)
                   end) s).
  { unfold fire, s. rewrite session_handlers, (heard_by doc card type Hg).
    rewrite (unheard_in card type _ (btns doc));
      [| intros e entry He [<- | [<- | []]]; left; cbn; intros ->;
         exact (Hnb He)].
    rewrite (unheard_in card type _ (hash_anchors doc));
      [| intros e entry He [<- | []]; right; cbn;
         destruct Ht as [-> | ->]; discriminate].
    rewrite (filter_own card type _ (feature_cards doc));
      [| intros e entry [<- | [<- | []]]; reflexivity | exact Hnd | exact Hin].
    cbn [filter listens]. rewrite Nat.eqb_refl.
    destruct Ht as [-> | ->]; reflexivity. }
  rewrite F.
  destruct Ht as [-> | ->]; cbn; do 2 eexists; rewrite <- app_assoc;
    repeat split.
Qed.

Lemma card_hover_targets_witness :
  let doc := {| gsap_defined := true; feature_cards := [1; 2]%nat;
                stat_items := [3]%nat; btns := [4; 5]%nat;
                hash_anchors := [6]%nat;
                feature_number := fun _ => None;
                href := fun _ => "#top"%string;
                querySelector := fun _ => Some 7%nat |} in
  gsap_defined doc = true /\ NoDup (feature_cards doc)
  /\ In 2%nat (feature_cards doc) /\ ~ In 2%nat (btns doc)
  /\ exists first second,
       gsap_calls (session doc ([] ++ [(2%nat, mouseenter)]))
       = (gsap_calls (session doc []) ++ [first; second])%list
       /\ is_from first = false /\ is_from second = false
       /\ target_of first = Element (Some 2%nat)
       /\ target_of second = Element None.
Proof.
  cbv zeta.
  assert (Hnd : NoDup [1; 2]%nat).
  { constructor; [intros [H | []]; discriminate H |].
    constructor; [intros [] | constructor]. }
  assert (Hin : In 2%nat [1; 2]%nat) by (right; left; reflexivity).
  assert (Hnb : ~ In 2%nat [4; 5]%nat).
  { intros [H | [H | []]]; discriminate H. }
  split; [reflexivity | split; [exact Hnd | split; [exact Hin |
    split; [exact Hnb |]]]].
  exact (card_hover_targets
           {| gsap_defined := true; feature_cards := [1; 2]%nat;
              stat_items := [3]%nat; btns := [4; 5]%nat;
              hash_anchors := [6]%nat;
              feature_number := fun _ => None;
              href := fun _ => "#top"%string;
              querySelector := fun _ => Some 7%nat |}
           [] 2%nat mouseenter eq_refl Hnd Hin Hnb (or_introl eq_refl)).
Defined.
